(** * A shallow embedding of [grader.py] (class [TestCaseGrader])

    The grader runs a target program once per test case, compares the
    trimmed standard output with the trimmed expected output and keeps the
    outcome dictionaries in [self.results].

    Modelling choices, all taken from the source:
    - a Python [str] is the list of its code points ([pystr]);
    - an outcome is the Python dict the code builds, a [gmap] from the key
      to a dynamically typed value ([pyval]);
    - [subprocess.run] is the only contact with the outside world: it is a
      section variable acting on an abstract world state, and its three
      observable results are the three cases [run_test_case] distinguishes
      (normal completion, [subprocess.TimeoutExpired], any other
      [Exception], of which only [str(e)] is used);
    - the grader object is passed explicitly: every method takes [self] and
      returns the updated [self]. *)

From Stdlib Require Import ZArith NArith List Ascii String.
From Stdlib Require Import DecimalString DecimalPos DecimalZ.
From Stdlib Require Import Sorting.Sorted Sorting.Permutation.
From stdpp Require Import gmap strings list fin_maps sorting.

Local Open Scope Z_scope.
Local Open Scope string_scope.
Local Open Scope list_scope.

(** ** Python strings *)

Abbreviation pystr := (list N).

(** A source literal: every character of an ASCII literal is its own code
    point. *)
Definition py (s : string) : pystr :=
  map N_of_ascii (list_ascii_of_string s).

(** [str.isspace] on one code point, the set [str.strip()] removes
    (CPython's [_PyUnicode_IsWhitespace]). *)
Definition isspace (c : N) : bool :=
  ((9 <=? c) && (c <=? 13) || (28 <=? c) && (c <=? 32)
   || (c =? 133) || (c =? 160) || (c =? 5760)
   || (8192 <=? c) && (c <=? 8202)
   || (c =? 8232) || (c =? 8233) || (c =? 8239) || (c =? 8287)
   || (c =? 12288))%N.

Fixpoint lstrip (s : pystr) : pystr :=
  match s with
  | [] => []
  | c :: s' => if isspace c then lstrip s' else s
  end.

Definition rstrip (s : pystr) : pystr := rev (lstrip (rev s)).

(** [s.strip()] *)
Definition strip (s : pystr) : pystr := rstrip (lstrip s).

(** [str(n)] for a Python [int]. *)
Definition str_of_int (z : Z) : pystr :=
  py (NilZero.string_of_int (Z.to_int z)).

(** [needle in haystack] on strings. *)
Fixpoint startswith (p s : pystr) : bool :=
  match p, s with
  | [], _ => true
  | a :: p', b :: s' => (a =? b)%N && startswith p' s'
  | _ :: _, [] => false
  end.

Fixpoint contains (needle s : pystr) : bool :=
  startswith needle s ||
  match s with
  | [] => false
  | _ :: s' => contains needle s'
  end.

(** ** Values and dictionaries *)

Inductive pyval : Type :=
| VNone
| VBool (b : bool)
| VInt (z : Z)
| VStr (s : pystr).

(** Truthiness, as [if v], [not v] and [v or w] test it. *)
Definition truthy (v : pyval) : bool :=
  match v with
  | VNone => false
  | VBool b => b
  | VInt z => negb (z =? 0)%Z
  | VStr s => match s with [] => false | _ => true end
  end.

(** ** The subprocess *)

(** What [subprocess.run(..., capture_output=True, text=True, timeout=t)]
    does, as far as [run_test_case] looks at it: it completes, raises
    [subprocess.TimeoutExpired], or raises another [Exception] [e], kept
    as [str(e)].  Signals outside [Exception] ([KeyboardInterrupt],
    [SystemExit]) are not part of the model. *)
Inductive run_result : Type :=
| Completed (stdout stderr : pystr) (returncode : Z)
| TimeoutExpired
| Raised (str_e : pystr).

Record TestCaseGrader : Type := mkGrader {
  code_file : pystr;
  timeout : Z;
  results : list (gmap string pyval)
}.

(** [TestCaseGrader(code_file, timeout)] *)
Definition init (code_file : pystr) (timeout : Z) : TestCaseGrader :=
  mkGrader code_file timeout [].

Definition set_results (self : TestCaseGrader) (rs : list (gmap string pyval))
  : TestCaseGrader :=
  mkGrader (code_file self) (timeout self) rs.

(** [test_name or f'Test {len(self.results) + 1}'] *)
Definition default_name (self : TestCaseGrader) : pystr :=
  py "Test " ++ str_of_int (Z.of_nat (length (results self)) + 1)%Z.

Definition name_or_default (self : TestCaseGrader) (test_name : option pystr)
  : pystr :=
  match test_name with
  | Some (c :: s) => c :: s
  | _ => default_name self
  end.

(** ** Exceptions and printed output *)

Inductive exn : Type :=
| KeyError (key : string)
| ZeroDivisionError
| FileNotFoundError (msg : pystr)
| ValueError (msg : pystr)
| NotImplementedError (msg : pystr)
| IndexError (msg : pystr)
| AttributeError (msg : pystr).

(** A computation that prints lines and either raises or returns: the
    lines printed so far (one element per [print] call, without the newline
    [print] appends) and the result. *)
Definition io (A : Type) : Type := list pystr * (exn + A).

Definition io_ret {A} (a : A) : io A := ([], inr a).

Definition io_bind {A B} (m : io A) (f : A -> io B) : io B :=
  match m with
  | (o, inl e) => (o, inl e)
  | (o, inr a) => let '(o', r) := f a in (o ++ o', r)
  end.

Definition raise {A} (e : exn) : io A := ([], inl e).

Definition print (s : pystr) : io unit := ([s], inr tt).

Declare Scope io_scope.
Delimit Scope io_scope with io.
Notation "x <- m ;; k" := (io_bind m (fun x => k))
  (at level 100, m at next level, right associativity) : io_scope.
Notation "m ;;; k" := (io_bind m (fun _ => k))
  (at level 100, k at level 200, right associativity) : io_scope.

(** [d[key]] *)
Definition getitem (d : gmap string pyval) (key : string) : io pyval :=
  match d !! key with
  | Some v => io_ret v
  | None => raise (KeyError key)
  end.

(** [str(v)], as an f-string field renders a value. *)
Definition str_of_val (v : pyval) : pystr :=
  match v with
  | VNone => py "None"
  | VBool true => py "True"
  | VBool false => py "False"
  | VInt z => str_of_int z
  | VStr s => s
  end.

(** [a / b] on two ints: the exact quotient, which Python then rounds to
    the nearest float. *)
Definition truediv (a b : Z) : io (Z * Z) :=
  if (b =? 0)%Z then raise ZeroDivisionError else io_ret (a, b).

Section Grader.

Variable world : Type.

(** [subprocess.run([sys.executable, code_file], input=..., timeout=...)] *)
Variable subprocess_run :
  world -> pystr -> pystr -> Z -> run_result * world.

(** [run_test_case]: the returned dictionary, the updated grader and the
    world after the call. *)
Definition run_test_case (self : TestCaseGrader)
    (input_data expected_output : pystr) (test_name : option pystr)
    (w : world) : gmap string pyval * TestCaseGrader * world :=
  let '(res, w') :=
    subprocess_run w (code_file self) input_data (timeout self) in
  let test_result : gmap string pyval :=
    match res with
    | Completed stdout stderr returncode =>
        let actual_output := strip stdout in
        let expected_output := strip expected_output in
        let passed := bool_decide (actual_output = expected_output) in
        <["test_name" := VStr (name_or_default self test_name)]>
        (<["passed" := VBool passed]>
        (<["input" := VStr input_data]>
        (<["expected_output" := VStr expected_output]>
        (<["actual_output" := VStr actual_output]>
        (<["stderr" := match stderr with
                       | [] => VNone
                       | _ => VStr stderr
                       end]>
        (<["return_code" := VInt returncode]> ∅))))))
    | TimeoutExpired =>
        <["test_name" := VStr (name_or_default self test_name)]>
        (<["passed" := VBool false]>
        (<["input" := VStr input_data]>
        (<["expected_output" := VStr expected_output]>
        (<["actual_output" := VNone]>
        (<["error" := VStr (py "Timeout: Execution exceeded "
                            ++ str_of_int (timeout self)
                            ++ py " seconds")]>
        (<["return_code" := VNone]> ∅))))))
    | Raised str_e =>
        <["test_name" := VStr (name_or_default self test_name)]>
        (<["passed" := VBool false]>
        (<["input" := VStr input_data]>
        (<["expected_output" := VStr expected_output]>
        (<["actual_output" := VNone]>
        (<["error" := VStr str_e]>
        (<["return_code" := VNone]> ∅))))))
    end in
  (test_result, set_results self (results self ++ [test_result]), w').

(** The [for] loop of [run_multiple_tests]; a test case is the dict
    [{'input': .., 'expected_output': .., 'name': ..}], read with
    [.get('input', '')], [.get('expected_output', '')] and
    [.get('name')]. *)
Fixpoint run_loop (test_cases : list (gmap string pystr))
    (self : TestCaseGrader) (w : world) : TestCaseGrader * world :=
  match test_cases with
  | [] => (self, w)
  | test_case :: rest =>
      let '(_, self', w') :=
        run_test_case self
          (default [] (test_case !! "input"))
          (default [] (test_case !! "expected_output"))
          (test_case !! "name") w in
      run_loop rest self' w'
  end.

(** [run_multiple_tests]: [self.results = []], the loop, then
    [return self.results]. *)
Definition run_multiple_tests (self : TestCaseGrader)
    (test_cases : list (gmap string pystr)) (w : world)
  : list (gmap string pyval) * TestCaseGrader * world :=
  let '(self', w') := run_loop test_cases (set_results self []) w in
  (results self', self', w').

End Grader.

Arguments run_test_case {world} subprocess_run self input_data
  expected_output test_name w.
Arguments run_loop {world} subprocess_run test_cases self w.
Arguments run_multiple_tests {world} subprocess_run self test_cases w.

(** ** Score and summary *)

(** [sum(1 for r in self.results if r['passed'])] *)
Fixpoint count_passed (rs : list (gmap string pyval)) : io Z :=
  match rs with
  | [] => io_ret 0
  | r :: rs' =>
      (v <- getitem r "passed" ;;
       n <- count_passed rs' ;;
       io_ret ((if truthy v then 1 else 0) + n))%io
  end.

(** [get_score] *)
Definition get_score (self : TestCaseGrader) : io (Z * Z) :=
  match results self with
  | [] => io_ret (0, 0)
  | _ =>
      (passed <- count_passed (results self) ;;
       io_ret (passed, Z.of_nat (length (results self))))%io
  end.

Definition rule : pystr := repeat 61%N 60.

(** [if d.get(key): print(f"{label}{d[key]}")] *)
Definition print_if_present (label : pystr) (d : gmap string pyval)
    (key : string) : io unit :=
  match d !! key with
  | Some v => if truthy v then print (label ++ str_of_val v) else io_ret tt
  | None => io_ret tt
  end.

Section Summary.

(** [repr(v)] and [format(a / b, '.1f')] are Python built-ins; the second
    is given the exact quotient as a pair (numerator, denominator). *)
Variable repr : pyval -> pystr.
Variable format_1f : Z * Z -> pystr.

(** One round of the [for result in self.results] loop. *)
Definition print_result (result : gmap string pyval) : io unit :=
  (passed <- getitem result "passed" ;;
   let status :=
     if truthy passed then 10003%N :: py " PASS" else 10007%N :: py " FAIL" in
   test_name <- getitem result "test_name" ;;
   print ([10%N] ++ status ++ py ": " ++ str_of_val test_name) ;;;
   if truthy passed then io_ret tt
   else
     inp <- getitem result "input" ;;
     print (py "  Input: " ++ repr inp) ;;;
     expected <- getitem result "expected_output" ;;
     print (py "  Expected: " ++ repr expected) ;;;
     actual <- getitem result "actual_output" ;;
     print (py "  Got: " ++ repr actual) ;;;
     print_if_present (py "  Error: ") result "error" ;;;
     print_if_present (py "  Stderr: ") result "stderr")%io.

Fixpoint print_results (rs : list (gmap string pyval)) : io unit :=
  match rs with
  | [] => io_ret tt
  | r :: rs' => (print_result r ;;; print_results rs')%io
  end.

(** [print_summary] *)
Definition print_summary (self : TestCaseGrader) : io unit :=
  match results self with
  | [] => print (py "No tests have been run yet.")
  | _ =>
      let total := Z.of_nat (length (results self)) in
      (passed <- count_passed (results self) ;;
       print ([10%N] ++ rule) ;;;
       print (py "TEST SUMMARY: " ++ str_of_int passed ++ py "/"
              ++ str_of_int total ++ py " tests passed") ;;;
       print rule ;;;
       print_results (results self) ;;;
       print ([10%N] ++ rule) ;;;
       percent <- truediv (100 * passed) total ;;
       print (py "Score: " ++ str_of_int passed ++ py "/"
              ++ str_of_int total ++ py " (" ++ format_1f percent
              ++ py "%)") ;;;
       print (rule ++ [10%N]))%io
  end.

End Summary.

(** ** Test discovery *)

(** [open(f, 'r').read()] either gives the text or raises (a directory, no
    permission, undecodable bytes): [Unreadable] carries [str(e)]. *)
Inductive file_read : Type :=
| Readable (text : pystr)
| Unreadable (str_e : pystr).

(** The test directory: [None] when [test_dir] does not exist, otherwise
    the names in it with what reading each one gives, in the order the
    file system enumerates them.  The directory is flat: what a pattern
    matches are entries of the directory itself, so a [Path] below it is
    identified with its file name. *)
Abbreviation listing := (list (pystr * file_read)).

(** [a <= b] on [str]: lexicographic on code points. *)
Fixpoint str_le (a b : pystr) : bool :=
  match a, b with
  | [], _ => true
  | _ :: _, [] => false
  | x :: a', y :: b' => (x <? y)%N || ((x =? y)%N && str_le a' b')
  end.

(** [sorted(...)] on paths of one directory: a stable insertion sort. *)
Fixpoint insert_sorted (x : pystr) (l : list pystr) : list pystr :=
  match l with
  | [] => [x]
  | y :: l' => if str_le x y then x :: l else y :: insert_sorted x l'
  end.

Fixpoint sorted (l : list pystr) : list pystr :=
  match l with
  | [] => []
  | x :: l' => insert_sorted x (sorted l')
  end.

(** [name.rfind('.')]: the index of the last dot. *)
Fixpoint rfind_dot (name : pystr) : option nat :=
  match name with
  | [] => None
  | c :: name' =>
      match rfind_dot name' with
      | Some i => Some (S i)
      | None => if (c =? 46)%N then Some 0%nat else None
      end
  end.

(** [PurePath.suffix] and [PurePath.stem]:
    [i = name.rfind('.')], split at [i] when [0 < i < len(name) - 1]. *)
Definition suffix (name : pystr) : pystr :=
  match rfind_dot name with
  | Some i =>
      if ((0 <? i) && (S i <? length name))%nat then drop i name else []
  | None => []
  end.

Definition stem (name : pystr) : pystr :=
  match rfind_dot name with
  | Some i =>
      if ((0 <? i) && (S i <? length name))%nat then take i name else name
  | None => name
  end.

(** [PurePath.with_suffix] for a suffix that is itself a [suffix]. *)
Definition with_suffix (name sfx : pystr) : pystr :=
  match suffix name with
  | [] => name ++ sfx
  | old => take (length name - length old) name ++ sfx
  end.

(** [path.exists()] for a path of the directory. *)
Definition exists_in (files : listing) (name : pystr) : bool :=
  bool_decide (name ∈ files.*1).

(** [open(path, 'r').read()] *)
Definition read_file (files : listing) (name : pystr) : file_read :=
  match list_find (fun e => e.1 = name) files with
  | Some (_, (_, r)) => r
  | None => Unreadable (py "[Errno 2] No such file or directory")
  end.

(** [s.split('/')] *)
Fixpoint split_slash (s : pystr) : list pystr :=
  match s with
  | [] => [[]]
  | c :: s' =>
      if (c =? 47)%N then [] :: split_slash s'
      else match split_slash s' with
           | part :: parts => (c :: part) :: parts
           | [] => [[c]]
           end
  end.

(** The components [parse_parts] keeps of a path: those that are neither
    empty nor ["."]. *)
Definition path_parts (path : pystr) : list pystr :=
  List.filter
    (fun x => negb (bool_decide (x = [])) && negb (bool_decide (x = [46%N])))
    (split_slash path).

(** [PurePath(path).name]: the last component, [''] when there is none. *)
Definition path_name (path : pystr) : pystr := List.last (path_parts path) [].

(** The exception [Path.glob(pattern)] raises before it looks at the
    directory, if any (pathlib of Python 3.11): for the empty pattern, for
    a pattern with a root, for a pattern without any component (with or
    without a final slash), and for a component that contains ["**"]
    without being ["**"]. *)
Definition glob_error (pattern : pystr) : option exn :=
  match pattern with
  | [] => Some (ValueError (py "Unacceptable pattern: ''"))
  | c :: _ =>
      if (c =? 47)%N then
        Some (NotImplementedError (py "Non-relative patterns are unsupported"))
      else
        match path_parts pattern with
        | [] =>
            if (List.last pattern 0 =? 47)%N then
              Some (AttributeError
                      (py "'_TerminatingSelector' object has no attribute 'select_from'"))
            else Some (IndexError (py "tuple index out of range"))
        | pattern_parts =>
            if existsb
                 (fun pat => negb (bool_decide (pat = py "**"))
                             && contains (py "**") pat)
                 pattern_parts
            then Some (ValueError
                         (py "Invalid pattern: '**' can only be an entire path component"))
            else None
        end
  end.

Section Discovery.

(** Whether a file name matches a glob pattern. *)
Variable fnmatch : pystr -> pystr -> bool.

(** The entries a pattern matches, in enumeration order. *)
Definition glob_matches (files : listing) (pattern : pystr) : list pystr :=
  filter (fun name => fnmatch pattern name = true) files.*1.

(** [test_dir_path.glob(pattern)], consumed at once by [sorted] or
    [list]: it raises for a pattern [Path.glob] does not accept. *)
Definition glob (files : listing) (pattern : pystr) : exn + list pystr :=
  match glob_error pattern with
  | Some e => inl e
  | None => inr (glob_matches files pattern)
  end.

(** The output file paired with [input_file] (methods 1 and 2); method 2
    calls [glob] and raises what it raises. *)
Definition find_output (files : listing) (output_pattern input_file : pystr)
  : exn + option pystr :=
  let base_name := stem input_file in
  let ext_output := suffix (path_name output_pattern) in
  let output_file :=
    match ext_output with
    | [] => None
    | _ =>
        let potential_output := with_suffix input_file ext_output in
        if exists_in files potential_output then Some potential_output
        else None
    end in
  match output_file with
  | Some f => inr (Some f)
  | None =>
      match glob files output_pattern with
      | inl e => inl e
      | inr output_files =>
          inr (match list_find (fun out_file => stem out_file = base_name)
                       output_files with
               | Some (_, f) => Some f
               | None => None
               end)
      end
  end.

(** The body of [for input_file in input_files]: the test case it
    appends, if any, and what it prints. *)
Definition load_one (files : listing) (output_pattern input_file : pystr)
  : io (option (gmap string pystr)) :=
  match find_output files output_pattern input_file with
  | inl e => raise e
  | inr (Some output_file) =>
      if negb (exists_in files output_file) then
        (print (py "Warning: No matching output file found for "
                ++ input_file ++ py ", skipping...") ;;; io_ret None)%io
      else
        let error e :=
          (print (py "Error reading test files " ++ input_file ++ py "/"
                  ++ output_file ++ py ": " ++ e) ;;; io_ret None)%io in
        match read_file files input_file with
        | Unreadable e => error e
        | Readable input_data =>
            match read_file files output_file with
            | Unreadable e => error e
            | Readable expected_output =>
                io_ret (Some
                  (<["name" := stem input_file]>
                  (<["input" := input_data]>
                  (<["expected_output" := expected_output]> ∅))))
            end
        end
  | inr None =>
      (print (py "Warning: No matching output file found for "
              ++ input_file ++ py ", skipping...") ;;; io_ret None)%io
  end.

Fixpoint load_loop (files : listing) (output_pattern : pystr)
    (input_files : list pystr) : io (list (gmap string pystr)) :=
  match input_files with
  | [] => io_ret []
  | input_file :: rest =>
      (r <- load_one files output_pattern input_file ;;
       test_cases <- load_loop files output_pattern rest ;;
       io_ret (match r with
               | Some tc => tc :: test_cases
               | None => test_cases
               end))%io
  end.

(** [load_tests_from_directory] *)
Definition load_tests_from_directory (fs : option listing)
    (test_dir input_pattern output_pattern : pystr)
  : io (list (gmap string pystr)) :=
  match fs with
  | None =>
      raise (FileNotFoundError (py "Test directory not found: " ++ test_dir))
  | Some files =>
      match glob files input_pattern with
      | inl e => raise e
      | inr matches =>
          match sorted matches with
          | [] =>
              raise (ValueError
                       (py "No input files found matching pattern '"
                        ++ input_pattern ++ py "' in " ++ test_dir))
          | input_files => load_loop files output_pattern input_files
          end
      end
  end.

End Discovery.

(** A pattern matcher for patterns made of literal characters, [?] and
    [*], enough for the default patterns. *)
Fixpoint fnmatch_simple (pattern name : pystr) : bool :=
  match pattern with
  | [] => match name with [] => true | _ => false end
  | p :: pattern' =>
      if (p =? 42)%N then
        (fix star (name : pystr) : bool :=
           fnmatch_simple pattern' name ||
           match name with
           | [] => false
           | _ :: name' => star name'
           end) name
      else
        match name with
        | [] => false
        | c :: name' =>
            ((p =? 63)%N || (p =? c)%N) && fnmatch_simple pattern' name'
        end
  end.

(** ** Running a test directory, and the script *)

Section Script.

Context {world : Type}.
Variable subprocess_run : world -> pystr -> pystr -> Z -> run_result * world.
Variable fnmatch : pystr -> pystr -> bool.
Variable repr : pyval -> pystr.
Variable format_1f : Z * Z -> pystr.

(** [run_tests_from_directory]: what it prints, and either the exception
    [load_tests_from_directory] raised or the returned list with the grader
    and the world after the call. *)
Definition run_tests_from_directory (self : TestCaseGrader)
    (fs : option listing) (test_dir input_pattern output_pattern : pystr)
    (w : world) : io (list (gmap string pyval) * TestCaseGrader * world) :=
  (test_cases <- load_tests_from_directory fnmatch fs test_dir input_pattern
                   output_pattern ;;
   match test_cases with
   | [] =>
       print (py "No valid test cases found!") ;;;
       io_ret ([], self, w)
   | _ =>
       print (py "Found " ++ str_of_int (Z.of_nat (length test_cases))
              ++ py " test case(s)") ;;;
       io_ret (run_multiple_tests subprocess_run self test_cases w)
   end)%io.


End Script.

(** ** Notions used to state properties *)

(** An outcome dictionary with the keys [print_summary] and [get_score]
    read, [passed] being a [bool]. *)
Definition well_formed (r : gmap string pyval) : Prop :=
  (exists b, r !! "passed" = Some (VBool b))
  /\ is_Some (r !! "test_name")
  /\ is_Some (r !! "input")
  /\ is_Some (r !! "expected_output")
  /\ is_Some (r !! "actual_output").

(** The number of outcomes whose [passed] is true. *)
Definition is_passed (r : gmap string pyval) : bool :=
  match r !! "passed" with
  | Some v => truthy v
  | None => false
  end.

Definition passed_count (rs : list (gmap string pyval)) : Z :=
  Z.of_nat (length (List.filter is_passed rs)).

Definition all_space (s : pystr) : Prop := Forall (fun c => isspace c = true) s.

(** A text that neither starts nor ends with white space. *)
Definition no_outer_space (t : pystr) : Prop :=
  match t with
  | [] => True
  | c :: _ => isspace c = false /\ isspace (List.last t c) = false
  end.

(** The line [print_result] starts every outcome with. *)
Definition status_line (passed : bool) (test_name : pystr) : pystr :=
  [10%N] ++ (if passed then 10003%N :: py " PASS" else 10007%N :: py " FAIL")
  ++ py ": " ++ test_name.

(** The line [print_result] prints for an optional field, if any. *)
Definition optional_line (label : pystr) (o : option pyval) : list pystr :=
  match o with
  | Some v => if truthy v then [label ++ str_of_val v] else []
  | None => []
  end.

(** The line printed when a file of a pair cannot be read. *)
Definition read_error_line (input_file output_file str_e : pystr) : pystr :=
  py "Error reading test files " ++ input_file ++ py "/" ++ output_file
  ++ py ": " ++ str_e.

(** The test case built from a pair of files. *)
Definition test_case_of (input_file input_data expected_output : pystr)
  : gmap string pystr :=
  <["name" := stem input_file]>
  (<["input" := input_data]>
  (<["expected_output" := expected_output]> ∅)).

(** ** Concrete instances, for running the model *)

(** A scripted world: the results of the successive [subprocess.run]
    calls are read off a list. *)
Definition scripted_run (w : list run_result) (code_file input : pystr)
    (t : Z) : run_result * list run_result :=
  match w with
  | [] => (Raised (py "no more scripted results"), [])
  | r :: w' => (r, w')
  end.

(** The interpreter as [subprocess.run([sys.executable, code_file], ...)]
    meets it when it can be launched: the world lists the program files
    that exist, each with what it writes for a given input.  For a file
    that does not exist the interpreter starts all the same, writes a
    message to its standard error and exits with status 2. *)
Definition python_run (w : list (pystr * (pystr -> pystr)))
    (code_file input : pystr) (t : Z)
  : run_result * list (pystr * (pystr -> pystr)) :=
  match list_find (fun p => p.1 = code_file) w with
  | Some (_, (_, program)) => (Completed (program input) [] 0, w)
  | None =>
      (Completed []
         (py "python3: can't open file '" ++ code_file
          ++ py "': [Errno 2] No such file or directory" ++ [10%N]) 2, w)
  end.

(** The identity-copy target program: it writes its input back and exits
    with status 0. *)
Definition echo_run (w : unit) (code_file input : pystr) (t : Z)
  : run_result * unit :=
  (Completed input [] 0, w).

(** The name the [k]-th test case (from 0) of a batch is recorded under. *)
Definition batch_name (k : nat) (test_case : gmap string pystr) : pystr :=
  match test_case !! "name" with
  | Some (c :: s) => c :: s
  | _ => py "Test " ++ str_of_int (Z.of_nat k + 1)
  end.

(** A computation that does not end in [ZeroDivisionError]. *)
Definition no_zero_division {A : Type} (m : io A) : Prop :=
  m.2 <> inl ZeroDivisionError.

(** The order [sorted] sorts by, as a relation. *)
Definition str_leR : relation pystr := fun a b => str_le a b = true.

(** The line printed for an input file without an output file. *)
Definition skip_warning (input_file : pystr) : pystr :=
  py "Warning: No matching output file found for " ++ input_file
  ++ py ", skipping...".

(** The text of a readable file, for stating what a test case holds. *)
Definition text_of (files : listing) (f : pystr) : option pystr :=
  match read_file files f with
  | Readable t => Some t
  | Unreadable _ => None
  end.

(** A test directory as the file system might enumerate it: [a] and [c]
    have both files, [b] has no output file. *)
Definition sample_dir : listing :=
  [ (py "c.out", Readable (py "9"));
    (py "b.in", Readable (py "2 2"));
    (py "a.out", Readable (py "3"));
    (py "c.in", Readable (py "4 5"));
    (py "a.in", Readable (py "1 2")) ].


(** What holds of the lines printed and the test cases returned by the
    loop over [input_files]. *)
Definition loop_account (fnmatch : pystr -> pystr -> bool) (files : listing)
    (output_pattern : pystr) (input_files : list pystr) (out : list pystr)
    (tcs : list (gmap string pystr)) : Prop :=
  (length out + length tcs = length input_files)%nat
  /\ Forall (fun line =>
               exists f, f ∈ input_files
                 /\ (line = skip_warning f
                     \/ exists o e, line = read_error_line f o e)) out
  /\ Forall (fun tc =>
               exists f o i e, f ∈ input_files
                 /\ find_output fnmatch files output_pattern f = inr (Some o)
                 /\ read_file files f = Readable i
                 /\ read_file files o = Readable e
                 /\ tc = test_case_of f i e) tcs
  /\ (forall f tc, f ∈ input_files ->
        (load_one fnmatch files output_pattern f).2 = inr (Some tc) ->
        tc ∈ tcs)
  /\ exists kept,
       kept `sublist_of` input_files
       /\ map (fun tc => tc !! "name") tcs = map (fun f => Some (stem f)) kept
       /\ map (fun tc => tc !! "input") tcs = map (text_of files) kept
       /\ Forall (fun f => is_Some (text_of files f)) kept.

(** * Properties *)

(** ** Dictionary fields of one outcome *)

Ltac dict_lookup :=
  repeat (rewrite lookup_insert_ne by discriminate);
  first [ rewrite lookup_insert_eq | rewrite lookup_empty ]; try reflexivity.

Section RunTestCase.

Context {world : Type}.
Variable run : world -> pystr -> pystr -> Z -> run_result * world.
Variables (self : TestCaseGrader) (input_data expected_output : pystr).
Variables (test_name : option pystr) (w : world).

Let call := run_test_case run self input_data expected_output test_name w.

(** The call appends the dictionary it returns and touches nothing else
    of the grader. *)
Lemma run_test_case_appends :
  call.1.2 = set_results self (results self ++ [call.1.1])
  /\ call.2 = (run w (code_file self) input_data (timeout self)).2.
Proof.
  unfold call, run_test_case.
  destruct (run w (code_file self) input_data (timeout self)) as [res w'].
  split; reflexivity.
Qed.

Lemma run_test_case_test_name :
  call.1.1 !! "test_name" = Some (VStr (name_or_default self test_name)).
Proof.
  unfold call, run_test_case.
  destruct (run w (code_file self) input_data (timeout self)) as [[ | | ] w'];
    cbn [fst snd]; dict_lookup.
Qed.

Lemma run_test_case_input :
  call.1.1 !! "input" = Some (VStr input_data).
Proof.
  unfold call, run_test_case.
  destruct (run w (code_file self) input_data (timeout self)) as [[ | | ] w'];
    cbn [fst snd]; dict_lookup.
Qed.

End RunTestCase.

(** ** Trimming *)

Lemma lstrip_nonspace c s : isspace c = false -> lstrip (c :: s) = c :: s.
Proof. intros H. simpl. now rewrite H. Qed.

(** [strip] leaves alone a string that neither starts nor ends with
    white space: what lies between is never touched. *)
Lemma strip_inner c m d :
  isspace c = false -> isspace d = false ->
  strip (c :: m ++ [d]) = c :: m ++ [d].
Proof.
  intros Hc Hd. unfold strip, rstrip.
  rewrite (lstrip_nonspace c _ Hc).
  change (c :: m ++ [d]) with ((c :: m) ++ [d]).
  rewrite rev_unit, (lstrip_nonspace d _ Hd), <- rev_unit.
  apply rev_involutive.
Qed.

Lemma lstrip_all_space pre s : all_space pre -> lstrip (pre ++ s) = lstrip s.
Proof.
  induction 1 as [ | c pre Hc _ IH]; [ reflexivity | ].
  cbn [app lstrip]. now rewrite Hc.
Qed.

(** The first character [lstrip] leaves is not white space. *)
Lemma lstrip_head s :
  lstrip s = [] \/ exists c t, lstrip s = c :: t /\ isspace c = false.
Proof.
  induction s as [ | c s IH]; [ now left | ].
  cbn [lstrip]. destruct (isspace c) eqn:Hc; [ exact IH | ].
  right. now exists c, s.
Qed.

Lemma lstrip_app_nonempty c t s post :
  lstrip s = c :: t -> lstrip (s ++ post) = c :: t ++ post.
Proof.
  induction s as [ | x s IH]; [ discriminate | ].
  cbn [app lstrip]. destruct (isspace x); [ exact IH | ].
  now intros [= -> ->].
Qed.

Lemma lstrip_app_empty s post : lstrip s = [] -> lstrip (s ++ post) = lstrip post.
Proof.
  induction s as [ | x s IH]; [ reflexivity | ].
  cbn [app lstrip]. destruct (isspace x); [ exact IH | discriminate ].
Qed.

Lemma all_space_rev s : all_space s -> all_space (rev s).
Proof.
  unfold all_space. rewrite !Forall_forall. intros H c Hc. apply H.
  apply list_elem_of_In. apply in_rev. now apply list_elem_of_In.
Qed.

Lemma rstrip_all_space s post : all_space post -> rstrip (s ++ post) = rstrip s.
Proof.
  intros H. unfold rstrip. rewrite rev_app_distr.
  now rewrite lstrip_all_space by now apply all_space_rev.
Qed.

(** What [strip] returns: nothing, one character that is not white space,
    or a text whose first and last characters are not white space. *)
Lemma strip_shape s :
  strip s = []
  \/ (exists c, strip s = [c] /\ isspace c = false)
  \/ (exists c m d, strip s = c :: m ++ [d]
                    /\ isspace c = false /\ isspace d = false).
Proof.
  unfold strip, rstrip.
  destruct (lstrip_head s) as [-> | (c & t & -> & Hc)]; [ now left | ].
  right. cbn [rev].
  destruct (lstrip_head (rev t)) as [Ht | (d & u & Ht & Hd)].
  - left. exists c. rewrite (lstrip_app_empty _ _ Ht). cbn. now rewrite Hc.
  - right. exists c, (rev u), d.
    rewrite (lstrip_app_nonempty _ _ _ _ Ht).
    change (d :: u ++ [c]) with ((d :: u) ++ [c]).
    rewrite rev_unit. cbn [rev]. now repeat split.
Qed.

Lemma strip_idempotent s : strip (strip s) = strip s.
Proof.
  destruct (strip_shape s) as [-> | [(c & -> & Hc) | (c & m & d & -> & Hc & Hd)]].
  - reflexivity.
  - unfold strip, rstrip. cbn. rewrite Hc. cbn. now rewrite Hc.
  - now apply strip_inner.
Qed.

Lemma strip_padding pre s post :
  all_space pre -> all_space post -> strip (pre ++ s ++ post) = strip s.
Proof.
  intros Hpre Hpost. unfold strip.
  rewrite lstrip_all_space by assumption.
  destruct (lstrip_head s) as [Hs | (c & t & Hs & _)].
  - rewrite (lstrip_app_empty _ _ Hs), Hs.
    rewrite <- (app_nil_r post), lstrip_all_space by assumption. reflexivity.
  - rewrite (lstrip_app_nonempty _ _ _ _ Hs), Hs.
    change (c :: t ++ post) with ((c :: t) ++ post).
    now apply rstrip_all_space.
Qed.

(** A text without outer white space is its own trimmed form. *)
Lemma strip_no_outer_space t : no_outer_space t -> strip t = t.
Proof.
  destruct t as [ | c t]; [ reflexivity | ].
  intros [Hc Hd].
  destruct (exists_last (l := c :: t)) as (m & d & Hm); [ discriminate | ].
  rewrite Hm, last_last in Hd.
  destruct m as [ | c' m].
  - injection Hm as -> ->. unfold strip, rstrip. cbn. rewrite Hc. cbn.
    now rewrite Hc.
  - injection Hm as <- ->. now apply strip_inner.
Qed.

(** C1. When the subprocess terminates within the timeout, [passed] is
    true exactly when the standard output and the expected output are
    equal once the white space before and after each has been removed:
    for texts written as white space, a core without outer white space,
    white space, [passed] is true exactly when the cores are equal, and
    the core of the standard output is what [actual_output] holds.  The
    exit status does not enter the comparison (the value of [passed] is
    the same for every [returncode]) and is recorded as it is in
    [return_code]; strings that differ in inner white space only, such as
    ["a  b"] and ["a b"], do not pass. *)
Theorem run_test_case_passed_iff {world : Type}
    (run : world -> pystr -> pystr -> Z -> run_result * world)
    (self : TestCaseGrader) (input_data expected_output : pystr)
    (test_name : option pystr) (w w' : world)
    (stdout stderr : pystr) (returncode : Z) :
  run w (code_file self) input_data (timeout self)
    = (Completed stdout stderr returncode, w') ->
  let r :=
    (run_test_case run self input_data expected_output test_name w).1.1 in
  (r !! "passed" = Some (VBool true) <-> strip stdout = strip expected_output)
  /\ (r !! "passed" = Some (VBool false)
        <-> strip stdout <> strip expected_output)
  /\ r !! "return_code" = Some (VInt returncode)
  /\ r !! "actual_output" = Some (VStr (strip stdout))
  /\ (stdout = py "a  b" -> expected_output = py "a b" ->
        r !! "passed" = Some (VBool false))
  /\ (forall c m d c' m' d',
        isspace c = false -> isspace d = false ->
        isspace c' = false -> isspace d' = false ->
        stdout = c :: m ++ [d] -> expected_output = c' :: m' ++ [d'] ->
        (r !! "passed" = Some (VBool true) <-> stdout = expected_output))
  /\ (forall pre core post pre' core' post',
        all_space pre -> all_space post ->
        all_space pre' -> all_space post' ->
        no_outer_space core -> no_outer_space core' ->
        stdout = pre ++ core ++ post ->
        expected_output = pre' ++ core' ++ post' ->
        (r !! "passed" = Some (VBool true) <-> core = core')
        /\ (r !! "passed" = Some (VBool false) <-> core <> core')
        /\ r !! "actual_output" = Some (VStr core)).
Proof.
  intros Hrun r.
  assert (Hp : r !! "passed"
               = Some (VBool (bool_decide (strip stdout = strip expected_output)))).
  { unfold r, run_test_case. rewrite Hrun. cbn [fst snd]. dict_lookup. }
  assert (Hrc : r !! "return_code" = Some (VInt returncode)).
  { unfold r, run_test_case. rewrite Hrun. cbn [fst snd]. dict_lookup. }
  assert (Hact : r !! "actual_output" = Some (VStr (strip stdout))).
  { unfold r, run_test_case. rewrite Hrun. cbn [fst snd]. dict_lookup. }
  assert (Htrue : r !! "passed" = Some (VBool true)
                  <-> strip stdout = strip expected_output).
  { rewrite Hp. split.
    - intros [= H]. now apply bool_decide_eq_true in H.
    - intros H. do 2 f_equal. now apply bool_decide_eq_true. }
  assert (Hfalse : r !! "passed" = Some (VBool false)
                   <-> strip stdout <> strip expected_output).
  { rewrite Hp. split.
    - intros [= H]. now apply bool_decide_eq_false in H.
    - intros H. do 2 f_equal. now apply bool_decide_eq_false. }
  split; [ exact Htrue | ].
  split; [ exact Hfalse | ].
  split; [ exact Hrc | split; [ exact Hact | split; [ | split ] ] ].
  - intros -> ->. rewrite Hp. reflexivity.
  - intros c m d c' m' d' Hc Hd Hc' Hd' Hout Hexp.
    rewrite Htrue, Hout, Hexp, !strip_inner by assumption. reflexivity.
  - intros pre core post pre' core' post' Hpre Hpost Hpre' Hpost'
      Hcore Hcore' Hout Hexp.
    assert (Hs : strip stdout = core).
    { rewrite Hout, strip_padding by assumption.
      now apply strip_no_outer_space. }
    assert (Hs' : strip expected_output = core').
    { rewrite Hexp, strip_padding by assumption.
      now apply strip_no_outer_space. }
    rewrite Htrue, Hfalse, Hact, Hs, Hs'. now repeat split.
Qed.

(** A target that prints ["3"] with a newline and blanks around it, where
    ["3"] is expected, and exits with status 1: the run passes, the stored
    output is ["3"] (code point 51) and the status is recorded. *)
Lemma run_test_case_passed_iff_witness :
  let r :=
    (run_test_case scripted_run (init (py "dp.py") 5) (py "1 2") [51%N]
       None [Completed [10%N; 32%N; 51%N; 32%N; 10%N] (py "oops") 1]).1.1 in
  r !! "passed" = Some (VBool true)
  /\ r !! "actual_output" = Some (VStr [51%N])
  /\ r !! "return_code" = Some (VInt 1).
Proof.
  destruct (run_test_case_passed_iff scripted_run (init (py "dp.py") 5)
              (py "1 2") [51%N] None
              [Completed [10%N; 32%N; 51%N; 32%N; 10%N] (py "oops") 1] []
              [10%N; 32%N; 51%N; 32%N; 10%N] (py "oops") 1 eq_refl)
    as (_ & _ & Hrc & _ & _ & _ & Hcore).
  assert (H1 : all_space [10%N; 32%N]) by (repeat constructor).
  assert (H2 : all_space [32%N; 10%N]) by (repeat constructor).
  assert (H3 : all_space []) by constructor.
  assert (H4 : no_outer_space [51%N]) by (split; reflexivity).
  destruct (Hcore [10%N; 32%N] [51%N] [32%N; 10%N] [] [51%N] []
              H1 H2 H3 H3 H4 H4 eq_refl eq_refl)
    as (Hpass & _ & Hact).
  split; [ now apply Hpass | split; [ exact Hact | exact Hrc ] ].
Defined.

(** ** Timeouts and other failures *)

(** C3. When the execution exceeds the timeout, the outcome that is
    returned and recorded has [passed] false, no actual output, no return
    code, and the message ["Timeout: Execution exceeded <timeout> seconds"]
    where [<timeout>] is the configured timeout in decimal: read back as a
    number it is the timeout, and with the timeout 5 the message is
    ["Timeout: Execution exceeded 5 seconds"]. *)
Theorem run_test_case_timeout {world : Type}
    (run : world -> pystr -> pystr -> Z -> run_result * world)
    (self : TestCaseGrader) (input_data expected_output : pystr)
    (test_name : option pystr) (w w' : world) :
  run w (code_file self) input_data (timeout self) = (TimeoutExpired, w') ->
  let call := run_test_case run self input_data expected_output test_name w in
  let r := call.1.1 in
  r !! "passed" = Some (VBool false)
  /\ r !! "actual_output" = Some VNone
  /\ r !! "error"
     = Some (VStr (py "Timeout: Execution exceeded "
                   ++ str_of_int (timeout self) ++ py " seconds"))
  /\ r !! "return_code" = Some VNone
  /\ results call.1.2 = results self ++ [r]
  /\ (exists digits : string,
        r !! "error"
        = Some (VStr (py "Timeout: Execution exceeded " ++ py digits
                      ++ py " seconds"))
        /\ option_map Z.of_int (NilZero.int_of_string digits)
           = Some (timeout self))
  /\ (timeout self = 5 ->
      r !! "error" = Some (VStr (py "Timeout: Execution exceeded 5 seconds"))).
Proof.
  intros Hrun call r.
  assert (Herr : r !! "error"
                 = Some (VStr (py "Timeout: Execution exceeded "
                               ++ str_of_int (timeout self) ++ py " seconds"))).
  { unfold r, call, run_test_case. rewrite Hrun. cbn [fst snd]. dict_lookup. }
  split; [ | split; [ | split; [ exact Herr | split; [ | split; [ | split ] ] ] ] ].
  - unfold r, call, run_test_case. rewrite Hrun. cbn [fst snd]. dict_lookup.
  - unfold r, call, run_test_case. rewrite Hrun. cbn [fst snd]. dict_lookup.
  - unfold r, call, run_test_case. rewrite Hrun. cbn [fst snd]. dict_lookup.
  - unfold r, call, run_test_case. now rewrite Hrun.
  - exists (NilZero.string_of_int (Z.to_int (timeout self))).
    split; [ exact Herr | ].
    rewrite NilZero.isi.
    + cbn [option_map]. now rewrite DecimalZ.of_to.
    + destruct (timeout self) as [ | p | p]; cbn; try discriminate;
        intros [= Hp]; now apply (Unsigned.to_uint_nonnil p).
    + destruct (timeout self) as [ | p | p]; cbn; try discriminate;
        intros [= Hp]; now apply (Unsigned.to_uint_nonnil p).
  - intros H5. rewrite Herr, H5. reflexivity.
Qed.

(** With the timeout 5, code point by code point: the message is
    ["Timeout: Execution exceeded 5 seconds"]. *)
Lemma run_test_case_timeout_witness :
  let call :=
    run_test_case scripted_run (init (py "dp.py") 5) (py "1 2") (py "3")
      None [TimeoutExpired] in
  let r := call.1.1 in
  r !! "passed" = Some (VBool false)
  /\ r !! "actual_output" = Some VNone
  /\ r !! "error"
     = Some (VStr [84%N; 105%N; 109%N; 101%N; 111%N; 117%N; 116%N; 58%N; 32%N; 69%N; 120%N; 101%N; 99%N;
                    117%N; 116%N; 105%N; 111%N; 110%N; 32%N; 101%N;
                    120%N; 99%N; 101%N; 101%N; 100%N; 101%N; 100%N; 32%N;
                    53%N; 32%N; 115%N; 101%N; 99%N; 111%N; 110%N; 100%N; 115%N])
  /\ r !! "return_code" = Some VNone
  /\ results call.1.2 = [r].
Proof.
  destruct (run_test_case_timeout scripted_run (init (py "dp.py") 5)
              (py "1 2") (py "3") None [TimeoutExpired] [] eq_refl)
    as (Hp & Ha & _ & Hrc & Hres & _ & H5).
  split; [ exact Hp | split; [ exact Ha | split; [ | split ] ] ].
  - exact (H5 eq_refl).
  - exact Hrc.
  - exact Hres.
Defined.

(** The message of the witness above reads as the source formats it. *)
Example timeout_message_5 :
  py "Timeout: Execution exceeded " ++ str_of_int 5 ++ py " seconds"
  = py "Timeout: Execution exceeded 5 seconds".
Proof. reflexivity. Qed.

(** The stored [expected_output] is trimmed on the success path only: the
    rebinding [expected_output = expected_output.strip()] sits after
    [subprocess.run] inside the [try], so on a timeout or on another
    exception the dictionary keeps the text as it was passed in. *)
Lemma run_test_case_expected_output {world : Type}
    (run : world -> pystr -> pystr -> Z -> run_result * world)
    (self : TestCaseGrader) (input_data expected_output : pystr)
    (test_name : option pystr) (w : world) :
  let r :=
    (run_test_case run self input_data expected_output test_name w).1.1 in
  match (run w (code_file self) input_data (timeout self)).1 with
  | Completed _ _ _ =>
      r !! "expected_output" = Some (VStr (strip expected_output))
  | TimeoutExpired | Raised _ =>
      r !! "expected_output" = Some (VStr expected_output)
  end.
Proof.
  unfold run_test_case.
  destruct (run w (code_file self) input_data (timeout self)) as [[ | | ] w'];
    cbn [fst snd]; dict_lookup.
Qed.

(** C4. Not every branch stores the trimmed expected output: on a timeout
    the expected text [" 3 "] is stored with its blanks, although its
    trimmed form is ["3"] (the success path stores ["3"]). *)
Example run_test_case_timeout_expected_untrimmed :
  let r :=
    (run_test_case scripted_run (init (py "dp.py") 5) (py "1 2") (py " 3 ")
       None [TimeoutExpired]).1.1 in
  r !! "expected_output" = Some (VStr (py " 3 "))
  /\ r !! "expected_output" <> Some (VStr (strip (py " 3 "))).
Proof.
  split.
  - exact (run_test_case_expected_output scripted_run (init (py "dp.py") 5)
             (py "1 2") (py " 3 ") None [TimeoutExpired]).
  - rewrite (run_test_case_expected_output scripted_run (init (py "dp.py") 5)
               (py "1 2") (py " 3 ") None [TimeoutExpired] : _ = Some (VStr (py " 3 "))).
    vm_compute. discriminate.
Qed.

(** ** Batches *)

Section Batch.

Context {world : Type}.
Variable run : world -> pystr -> pystr -> Z -> run_result * world.

(** What the loop adds to [self.results]: one outcome per test case, in
    order, each with the input of its test case and with the name the
    test case carries or, failing that, its position in the list of
    outcomes. *)
Lemma run_loop_spec (test_cases : list (gmap string pystr)) :
  forall (self : TestCaseGrader) (w : world),
  exists new : list (gmap string pyval),
    results (run_loop run test_cases self w).1 = results self ++ new
    /\ length new = length test_cases
    /\ map (fun r => r !! "test_name") new
       = imap (fun k tc =>
                 Some (VStr (batch_name (length (results self) + k) tc)))
           test_cases
    /\ map (fun r => r !! "input") new
       = map (fun tc => Some (VStr (default [] (tc !! "input")))) test_cases.
Proof.
  induction test_cases as [ | tc rest IH]; intros self w.
  - exists []. cbn. rewrite app_nil_r. repeat split.
  - cbn [run_loop].
    pose proof (run_test_case_appends run self (default [] (tc !! "input"))
                  (default [] (tc !! "expected_output")) (tc !! "name") w)
      as [Happ _].
    pose proof (run_test_case_test_name run self (default [] (tc !! "input"))
                  (default [] (tc !! "expected_output")) (tc !! "name") w)
      as Hname.
    pose proof (run_test_case_input run self (default [] (tc !! "input"))
                  (default [] (tc !! "expected_output")) (tc !! "name") w)
      as Hinp.
    destruct (run_test_case run self (default [] (tc !! "input"))
                (default [] (tc !! "expected_output")) (tc !! "name") w)
      as [[r self'] w'].
    cbn [fst snd] in Happ, Hname, Hinp. subst self'.
    destruct (IH (set_results self (results self ++ [r])) w')
      as (new & Hres & Hlen & Hnames & Hinps).
    exists (r :: new). cbn [results set_results] in Hres, Hnames.
    split; [ | split; [ | split ] ].
    + rewrite Hres, <- app_assoc. reflexivity.
    + cbn. now rewrite Hlen.
    + cbn [map]. rewrite imap_cons. f_equal.
      * rewrite Hname. unfold batch_name, name_or_default, default_name.
        rewrite Nat.add_0_r. reflexivity.
      * rewrite Hnames. apply imap_ext. intros k tc' _. cbn.
        rewrite length_app. cbn [length].
        do 3 f_equal. lia.
    + cbn [map]. now rewrite Hinp, Hinps.
Qed.

(** [run_multiple_tests] as a whole. *)
Lemma run_multiple_tests_spec (self : TestCaseGrader)
    (test_cases : list (gmap string pystr)) (w : world) :
  let call := run_multiple_tests run self test_cases w in
  (forall old : list (gmap string pyval),
      run_multiple_tests run (set_results self old) test_cases w = call)
  /\ results call.1.2 = call.1.1
  /\ length call.1.1 = length test_cases
  /\ map (fun r => r !! "input") call.1.1
     = map (fun tc => Some (VStr (default [] (tc !! "input")))) test_cases
  /\ map (fun r => r !! "test_name") call.1.1
     = imap (fun k tc => Some (VStr (batch_name k tc))) test_cases.
Proof.
  intros call. unfold call, run_multiple_tests.
  destruct (run_loop_spec test_cases (set_results self []) w)
    as (new & Hres & Hlen & Hnames & Hinps).
  destruct (run_loop run test_cases (set_results self []) w) as [self' w']
    eqn:Hloop.
  cbn [fst snd results set_results app length Nat.add] in *.
  repeat split; try reflexivity; try congruence.
  intros old.
  change (set_results (set_results self old) []) with (set_results self []).
  now rewrite Hloop.
Qed.

(** C2. [run_multiple_tests] forgets the outcomes recorded before the
    call (it starts from the empty list whatever was recorded), and
    afterwards the session holds exactly one outcome per test case, in the
    order of the test cases: the [k]-th outcome has the input of the
    [k]-th test case, and its name (or ["Test k+1"] when it has none). *)
Theorem run_multiple_tests_outcomes (self : TestCaseGrader)
    (test_cases : list (gmap string pystr)) (w : world) :
  let call := run_multiple_tests run self test_cases w in
  (forall old : list (gmap string pyval),
      run_multiple_tests run (set_results self old) test_cases w = call)
  /\ run_multiple_tests run self [] w = ([], set_results self [], w)
  /\ results call.1.2 = call.1.1
  /\ length call.1.1 = length test_cases
  /\ map (fun r => r !! "input") call.1.1
     = map (fun tc => Some (VStr (default [] (tc !! "input")))) test_cases
  /\ map (fun r => r !! "test_name") call.1.1
     = imap (fun k tc => Some (VStr (batch_name k tc))) test_cases.
Proof.
  intros call.
  destruct (run_multiple_tests_spec self test_cases w)
    as (Hreset & Hsame & Hlen & Hinps & Hnames).
  fold call in Hreset, Hsame, Hlen, Hinps, Hnames.
  repeat split; assumption.
Qed.

End Batch.

(** ** Failures other than a timeout *)

(** C5, as the code has it.  When [subprocess.run] raises an exception
    other than a timeout (the interpreter cannot be launched, a permission
    or stream error), [run_test_case] still returns: the outcome it
    returns and records has [passed] false, no actual output, no return
    code, and [str(e)] as its diagnostic, which is non-empty whenever the
    exception has a text; the loop of a batch goes on with the remaining
    test cases.  A failure that lets the interpreter start and exit, as a
    missing or unreadable program file does (exit status 2), is no
    exception: the outcome is that of a completed run, without [error],
    with the trimmed standard output as actual output, the exit status as
    return code and [passed] decided by the comparison; the loop goes on
    as well. *)
Theorem run_test_case_exception {world : Type}
    (run : world -> pystr -> pystr -> Z -> run_result * world)
    (self : TestCaseGrader) (test_case : gmap string pystr)
    (rest : list (gmap string pystr)) (w : world) :
  let input_data := default [] (test_case !! "input") in
  let expected_output := default [] (test_case !! "expected_output") in
  let call :=
    run_test_case run self input_data expected_output (test_case !! "name") w in
  let r := call.1.1 in
  (forall (str_e : pystr) (w' : world),
      run w (code_file self) input_data (timeout self) = (Raised str_e, w') ->
      r !! "passed" = Some (VBool false)
      /\ r !! "actual_output" = Some VNone
      /\ r !! "error" = Some (VStr str_e)
      /\ (str_e <> [] -> exists d, r !! "error" = Some (VStr d) /\ d <> [])
      /\ r !! "return_code" = Some VNone
      /\ results call.1.2 = results self ++ [r]
      /\ run_loop run (test_case :: rest) self w
         = run_loop run rest (set_results self (results self ++ [r])) w'
      /\ length (results (run_loop run (test_case :: rest) self w).1)
         = (length (results self) + 1 + length rest)%nat)
  /\ (forall (stdout stderr : pystr) (returncode : Z) (w' : world),
        run w (code_file self) input_data (timeout self)
        = (Completed stdout stderr returncode, w') ->
        r !! "error" = None
        /\ r !! "actual_output" = Some (VStr (strip stdout))
        /\ r !! "return_code" = Some (VInt returncode)
        /\ r !! "passed"
           = Some (VBool (bool_decide (strip stdout = strip expected_output)))
        /\ results call.1.2 = results self ++ [r]
        /\ run_loop run (test_case :: rest) self w
           = run_loop run rest (set_results self (results self ++ [r])) w'
        /\ length (results (run_loop run (test_case :: rest) self w).1)
           = (length (results self) + 1 + length rest)%nat).
Proof.
  intros input_data expected_output call r.
  assert (Hgo : forall res w',
             run w (code_file self) input_data (timeout self) = (res, w') ->
             results call.1.2 = results self ++ [r]
             /\ run_loop run (test_case :: rest) self w
                = run_loop run rest (set_results self (results self ++ [r])) w'
             /\ length (results (run_loop run (test_case :: rest) self w).1)
                = (length (results self) + 1 + length rest)%nat).
  { intros res w' Hrun.
    assert (Hcall : call = (r, set_results self (results self ++ [r]), w')).
    { unfold r, call, run_test_case. now rewrite Hrun. }
    assert (Hloop : run_loop run (test_case :: rest) self w
                    = run_loop run rest
                        (set_results self (results self ++ [r])) w').
    { cbn [run_loop]. fold input_data expected_output call. now rewrite Hcall. }
    split; [ now rewrite Hcall | split; [ exact Hloop | ] ].
    rewrite Hloop.
    destruct (run_loop_spec run rest (set_results self (results self ++ [r])) w')
      as (new & Hres & Hlen & _).
    rewrite Hres. cbn [results set_results].
    rewrite !length_app, Hlen. reflexivity. }
  split.
  - intros str_e w' Hrun.
    assert (Herr : r !! "error" = Some (VStr str_e)).
    { unfold r, call, run_test_case. rewrite Hrun. cbn [fst snd]. dict_lookup. }
    split; [ | split; [ | split; [ exact Herr | split; [ | split ] ] ] ].
    + unfold r, call, run_test_case. rewrite Hrun. cbn [fst snd]. dict_lookup.
    + unfold r, call, run_test_case. rewrite Hrun. cbn [fst snd]. dict_lookup.
    + intros Hne. exists str_e. now split.
    + unfold r, call, run_test_case. rewrite Hrun. cbn [fst snd]. dict_lookup.
    + exact (Hgo _ _ Hrun).
  - intros stdout stderr returncode w' Hrun.
    split; [ | split; [ | split; [ | split ] ] ].
    + unfold r, call, run_test_case. rewrite Hrun. cbn [fst snd]. dict_lookup.
    + unfold r, call, run_test_case. rewrite Hrun. cbn [fst snd]. dict_lookup.
    + unfold r, call, run_test_case. rewrite Hrun. cbn [fst snd]. dict_lookup.
    + unfold r, call, run_test_case. rewrite Hrun. cbn [fst snd]. dict_lookup.
    + exact (Hgo _ _ Hrun).
Qed.

(** A permission error on the first of two test cases, and a missing
    program file on the first of two test cases. *)
Lemma run_test_case_exception_witness :
  let self := init (py "dp.py") 5 in
  let test_case : gmap string pystr :=
    <["input" := py "1 2"]> (<["expected_output" := py "3"]> ∅) in
  let w := [Raised (py "[Errno 13] Permission denied"); Completed (py "3") [] 0] in
  let r :=
    (run_test_case scripted_run self (py "1 2") (py "3") None w).1.1 in
  let r' :=
    (run_test_case python_run self (py "1 2") (py "3") None []).1.1 in
  (r !! "passed" = Some (VBool false)
   /\ r !! "actual_output" = Some VNone
   /\ r !! "error" = Some (VStr (py "[Errno 13] Permission denied"))
   /\ r !! "return_code" = Some VNone
   /\ length (results (run_loop scripted_run [test_case; test_case] self w).1)
      = 2%nat)
  /\ (r' !! "error" = None
      /\ r' !! "actual_output" = Some (VStr [])
      /\ r' !! "return_code" = Some (VInt 2)
      /\ r' !! "passed" = Some (VBool false)
      /\ length (results (run_loop python_run [test_case; test_case] self []).1)
         = 2%nat).
Proof.
  intros self test_case w r r'.
  destruct (proj1 (run_test_case_exception scripted_run self test_case
                     [test_case] w)
              (py "[Errno 13] Permission denied") [Completed (py "3") [] 0]
              eq_refl)
    as (Hp & Ha & He & _ & Hrc & _ & _ & Hlen).
  destruct (proj2 (run_test_case_exception python_run self test_case
                     [test_case] [])
              [] (py "python3: can't open file 'dp.py': [Errno 2] No such file or directory" ++ [10%N]) 2 [] eq_refl)
    as (He' & Ha' & Hrc' & Hp' & _ & _ & Hlen').
  split.
  - split; [ exact Hp | split; [ exact Ha | split; [ exact He | ] ] ].
    split; [ exact Hrc | exact Hlen ].
  - split; [ exact He' | split; [ exact Ha' | split; [ exact Hrc' | ] ] ].
    split; [ exact Hp' | exact Hlen' ].
Defined.

(** Two failures the claim does not describe.  A program file that does
    not exist: the interpreter exits with status 2, nothing is raised, and
    the outcome has no [error], an actual output that is empty and not
    [None], the return code 2, and passes when nothing is expected.  An
    exception without a text, such as [MemoryError()]: the diagnostic is
    empty. *)
Lemma run_test_case_failure_not_as_claimed :
  let missing :=
    (run_test_case python_run (init (py "dp.py") 5) (py "1 2") []
       None []).1.1 in
  let silent :=
    (run_test_case scripted_run (init (py "dp.py") 5) (py "1 2") (py "3")
       None [Raised []]).1.1 in
  (missing !! "passed" = Some (VBool true)
   /\ missing !! "error" = None
   /\ missing !! "actual_output" = Some (VStr [])
   /\ missing !! "return_code" = Some (VInt 2)
   /\ ~ (missing !! "passed" = Some (VBool false)
         /\ (exists d, missing !! "error" = Some (VStr d) /\ d <> [])
         /\ missing !! "actual_output" = Some VNone
         /\ missing !! "return_code" = Some VNone))
  /\ (silent !! "passed" = Some (VBool false)
      /\ silent !! "error" = Some (VStr [])
      /\ ~ (exists d, silent !! "error" = Some (VStr d) /\ d <> [])).
Proof.
  cbn zeta.
  assert (Hm : (run_test_case python_run (init (py "dp.py") 5) (py "1 2") []
                  None []).1.1 !! "passed" = Some (VBool true)).
  { unfold run_test_case. cbn [python_run list_find fst snd]. dict_lookup. }
  assert (Hs : (run_test_case scripted_run (init (py "dp.py") 5) (py "1 2")
                  (py "3") None [Raised []]).1.1 !! "error" = Some (VStr [])).
  { unfold run_test_case. cbn [scripted_run fst snd]. dict_lookup. }
  split; [ split; [ exact Hm | split; [ | split; [ | split ] ] ] | ].
  - unfold run_test_case. cbn [python_run list_find fst snd]. dict_lookup.
  - unfold run_test_case. cbn [python_run list_find fst snd]. dict_lookup.
  - unfold run_test_case. cbn [python_run list_find fst snd]. dict_lookup.
  - intros (Hf & _). rewrite Hm in Hf. discriminate.
  - split; [ | split; [ exact Hs | ] ].
    + unfold run_test_case. cbn [scripted_run fst snd]. dict_lookup.
    + intros (d & Hd & Hne). rewrite Hs in Hd. now injection Hd as <-.
Qed.

(** ** Default names *)

Lemma py_inj (a b : string) : py a = py b -> a = b.
Proof.
  unfold py. intros H.
  rewrite <- (string_of_list_ascii_of_string a),
          <- (string_of_list_ascii_of_string b).
  f_equal. revert H.
  generalize (list_ascii_of_string a) (list_ascii_of_string b).
  induction l as [ | x l IH]; intros [ | y l']; cbn; try discriminate; auto.
  intros [= Hxy Hl]. f_equal; [ | now apply IH ].
  now rewrite <- (ascii_N_embedding x), <- (ascii_N_embedding y), Hxy.
Qed.

(** Distinct integers print differently. *)
Lemma str_of_int_inj (a b : Z) : str_of_int a = str_of_int b -> a = b.
Proof.
  unfold str_of_int. intros H. apply py_inj in H.
  assert (Hnn : forall z, Z.to_int z <> Decimal.Pos Decimal.Nil
                          /\ Z.to_int z <> Decimal.Neg Decimal.Nil).
  { intros [ | p | p]; cbn; split; try discriminate;
      intros [= Hp]; now apply (Unsigned.to_uint_nonnil p). }
  apply DecimalZ.to_int_inj.
  assert (Hs : Some (Z.to_int a) = Some (Z.to_int b)).
  { rewrite <- (NilZero.isi (Z.to_int a)), <- (NilZero.isi (Z.to_int b));
      try apply Hnn.
    now rewrite H. }
  now injection Hs.
Qed.

Section Naming.

Context {world : Type}.
Variable run : world -> pystr -> pystr -> Z -> run_result * world.
Variables (self : TestCaseGrader) (input_data expected_output : pystr).
Variable w : world.


(** C9. The empty name counts as no name: the call does exactly what it
    does without a name, the recorded name is the default ["Test N"] and
    never the empty string, also for the test cases of a batch. *)
Theorem empty_name_is_unnamed :
  let n := Z.of_nat (length (results self)) in
  let call := run_test_case run self input_data expected_output (Some []) w in
  call = run_test_case run self input_data expected_output None w
  /\ call.1.1 !! "test_name" = Some (VStr (py "Test " ++ str_of_int (n + 1)))
  /\ call.1.1 !! "test_name" <> Some (VStr [])
  /\ (forall test_cases : list (gmap string pystr),
       map (fun r => r !! "test_name")
         (run_multiple_tests run self (<["name" := []]> <$> test_cases) w).1.1
       = imap (fun k _ =>
                 Some (VStr (py "Test " ++ str_of_int (Z.of_nat k + 1))))
           test_cases).
Proof.
  intros n call.
  assert (H : call.1.1 !! "test_name"
              = Some (VStr (py "Test " ++ str_of_int (n + 1)))).
  { unfold call. rewrite run_test_case_test_name. reflexivity. }
  split; [ reflexivity | split; [ exact H | split ]].
  - rewrite H. discriminate.
  - intros test_cases.
    destruct (run_multiple_tests_spec run self
                (<["name" := []]> <$> test_cases) w)
      as (_ & _ & _ & _ & Hnames).
    rewrite Hnames, imap_fmap. apply imap_ext. intros k tc _. cbn.
    unfold batch_name. now rewrite lookup_insert_eq.
Qed.

End Naming.

(** ** The empty session *)

Lemma no_zero_division_bind {A B : Type} (m : io A) (f : A -> io B) :
  no_zero_division m -> (forall a, no_zero_division (f a)) ->
  no_zero_division (io_bind m f).
Proof.
  unfold no_zero_division, io_bind. intros Hm Hf.
  destruct m as [o [e | a]];
    [ cbn in *; intros [= ->]; now apply Hm | ].
  specialize (Hf a). destruct (f a) as [o' r]. exact Hf.
Qed.

Lemma no_zero_division_ret {A : Type} (a : A) : no_zero_division (io_ret a).
Proof. discriminate. Qed.

Lemma no_zero_division_print (s : pystr) : no_zero_division (print s).
Proof. discriminate. Qed.

Lemma no_zero_division_getitem d key : no_zero_division (getitem d key).
Proof. unfold getitem. destruct (d !! key); discriminate. Qed.

Lemma no_zero_division_print_if_present label d key :
  no_zero_division (print_if_present label d key).
Proof.
  unfold print_if_present. destruct (d !! key) as [v | ]; [ | discriminate ].
  destruct (truthy v); discriminate.
Qed.

Create HintDb nozd.

#[local] Hint Resolve no_zero_division_ret no_zero_division_print
  no_zero_division_getitem no_zero_division_print_if_present : nozd.

Ltac nozd :=
  repeat first
    [ solve [ auto with nozd ]
    | apply no_zero_division_bind; [ | intros ? ] ].

Lemma no_zero_division_count_passed rs : no_zero_division (count_passed rs).
Proof. induction rs as [ | r rs IH]; cbn [count_passed]; nozd. Qed.

#[local] Hint Resolve no_zero_division_count_passed : nozd.

Section SummaryProperties.

Variable repr : pyval -> pystr.
Variable format_1f : Z * Z -> pystr.

Lemma no_zero_division_print_result r :
  no_zero_division (print_result repr r).
Proof.
  unfold print_result. nozd.
  match goal with |- context [truthy ?v] => destruct (truthy v) end; nozd.
Qed.

Lemma no_zero_division_print_results rs :
  no_zero_division (print_results repr rs).
Proof.
  induction rs as [ | r rs IH]; cbn [print_results]; [ nozd | ].
  apply no_zero_division_bind;
    [ apply no_zero_division_print_result | intros _; exact IH ].
Qed.

(** C6, as the code has it.  With no outcome recorded, [get_score]
    returns [(0, 0)] and [print_summary] prints the single line
    ["No tests have been run yet."] and returns before any score line or
    percentage is computed; whatever is recorded, neither of them divides
    by zero. *)
Theorem empty_session_summary (self : TestCaseGrader) :
  get_score (set_results self []) = ([], inr (0, 0))
  /\ print_summary repr format_1f (set_results self [])
     = ([py "No tests have been run yet."], inr tt)
  /\ no_zero_division (get_score self)
  /\ no_zero_division (print_summary repr format_1f self).
Proof.
  split; [ reflexivity | split; [ reflexivity | split ]].
  - unfold get_score. destruct (results self) as [ | r rs]; nozd.
  - pose proof no_zero_division_print_results as Hrs.
    unfold print_summary. destruct (results self) as [ | r rs]; nozd.
    unfold truediv.
      destruct (Z.eqb_spec (Z.of_nat (length (r :: rs))) 0) as [H0 | _];
        [ cbn [length] in H0; lia | nozd ].
Qed.

End SummaryProperties.

(** With no outcome recorded, nothing [print_summary] prints contains
    ["0/0"]: the claim that the empty batch is reported as ["0/0"] fails. *)
Lemma print_summary_empty_no_score_line :
  let self := init (py "dp.py") 5 in
  let printed := (print_summary (fun _ => []) (fun _ => []) self).1 in
  get_score self = ([], inr (0, 0))
  /\ printed = [py "No tests have been run yet."]
  /\ ~ (exists line, line ∈ printed /\ contains (py "0/0") line = true).
Proof.
  cbn zeta. split; [ reflexivity | split; [ reflexivity | ] ].
  intros (line & Hin & Hc).
  change ((print_summary (fun _ => []) (fun _ => []) (init (py "dp.py") 5)).1)
    with [py "No tests have been run yet."] in Hin.
  apply list_elem_of_singleton in Hin. subst line.
  vm_compute in Hc. discriminate.
Qed.

(** ** Test discovery *)

Lemma str_le_iff x a y b :
  str_le (x :: a) (y :: b) = true
  <-> (x < y)%N \/ (x = y /\ str_le a b = true).
Proof.
  cbn [str_le]. rewrite orb_true_iff, andb_true_iff, N.ltb_lt, N.eqb_eq.
  reflexivity.
Qed.

Lemma str_le_refl a : str_le a a = true.
Proof.
  induction a as [ | x a IH]; [ reflexivity | ].
  apply str_le_iff. now right.
Qed.

Lemma str_le_trans a : forall b c,
  str_le a b = true -> str_le b c = true -> str_le a c = true.
Proof.
  induction a as [ | x a IH]; intros [ | y b] [ | z c]; try easy.
  rewrite !str_le_iff. intros [Hxy | [-> Hab]] [Hyz | [-> Hbc]].
  - left. lia.
  - now left.
  - now left.
  - right. split; [ reflexivity | ]. now apply (IH b).
Qed.

Lemma str_le_antisym a : forall b,
  str_le a b = true -> str_le b a = true -> a = b.
Proof.
  induction a as [ | x a IH]; intros [ | y b]; try easy.
  rewrite !str_le_iff. intros [Hxy | [-> Hab]] [Hyx | [Heq Hba]]; try lia.
  f_equal. now apply IH.
Qed.

Lemma str_le_total a : forall b, str_le a b = true \/ str_le b a = true.
Proof.
  induction a as [ | x a IH]; intros [ | y b]; try (now left); try (now right).
  rewrite !str_le_iff.
  destruct (N.lt_total x y) as [H | [-> | H]]; [ now left; left | | now right; left ].
  destruct (IH b); [ left | right ]; now right.
Qed.

#[local] Instance str_leR_trans : Transitive str_leR.
Proof. intros a b c. apply str_le_trans. Qed.

#[local] Instance str_leR_antisym : AntiSymm (=) str_leR.
Proof. intros a b. apply str_le_antisym. Qed.

Lemma insert_sorted_Permutation x l : insert_sorted x l ≡ₚ x :: l.
Proof.
  induction l as [ | y l IH]; [ reflexivity | ].
  cbn [insert_sorted]. destruct (str_le x y); [ reflexivity | ].
  rewrite IH. apply Permutation_swap.
Qed.

Lemma sorted_Permutation l : sorted l ≡ₚ l.
Proof.
  induction l as [ | x l IH]; [ reflexivity | ].
  cbn [sorted]. now rewrite insert_sorted_Permutation, IH.
Qed.

Lemma insert_sorted_StronglySorted x l :
  StronglySorted str_leR l -> StronglySorted str_leR (insert_sorted x l).
Proof.
  induction l as [ | y l IH]; intros Hl.
  - repeat constructor.
  - cbn [insert_sorted]. destruct (str_le x y) eqn:Hxy.
    + constructor; [ exact Hl | ].
      apply StronglySorted_inv in Hl as [_ Hy].
      constructor; [ exact Hxy | ].
      eapply Forall_impl; [ exact Hy | ].
      intros z Hz. now apply (str_le_trans x y z).
    + apply StronglySorted_inv in Hl as [Hl Hy].
      constructor; [ now apply IH | ].
      rewrite insert_sorted_Permutation. constructor; [ | exact Hy ].
      destruct (str_le_total x y) as [H | H]; [ congruence | exact H ].
Qed.

Lemma sorted_StronglySorted l : StronglySorted str_leR (sorted l).
Proof.
  induction l as [ | x l IH]; [ constructor | ].
  now apply insert_sorted_StronglySorted.
Qed.

(** Sorting forgets the order the names came in. *)
Lemma sorted_Permutation_eq l1 l2 : l1 ≡ₚ l2 -> sorted l1 = sorted l2.
Proof.
  intros H. apply (StronglySorted_unique str_leR);
    try apply sorted_StronglySorted.
  now rewrite !sorted_Permutation.
Qed.

Lemma StronglySorted_sublist (l k : list pystr) :
  l `sublist_of` k -> StronglySorted str_leR k -> StronglySorted str_leR l.
Proof.
  induction 1 as [ | x l k Hlk IH | x l k Hlk IH]; intros Hk.
  - constructor.
  - apply StronglySorted_inv in Hk as [Hk Hx].
    constructor; [ now apply IH | ].
    rewrite Forall_forall in Hx |- *. intros y Hy. apply Hx.
    now apply (elem_of_sublist l k).
  - apply StronglySorted_inv in Hk as [Hk _]. now apply IH.
Qed.

Section DiscoveryProperties.

Variable fnmatch : pystr -> pystr -> bool.
Variable files : listing.
Variable output_pattern : pystr.

Lemma glob_matches_elem_of pattern name :
  name ∈ glob_matches fnmatch files pattern
  <-> name ∈ files.*1 /\ fnmatch pattern name = true.
Proof. unfold glob_matches. rewrite list_elem_of_filter. tauto. Qed.

Lemma glob_accepted pattern :
  glob_error pattern = None ->
  glob fnmatch files pattern = inr (glob_matches fnmatch files pattern).
Proof. unfold glob. now intros ->. Qed.


(** Method 2: what [glob] raises, or the first match with the stem. *)
Lemma method_2_raises base_name e :
  match glob fnmatch files output_pattern with
  | inl e => inl e
  | inr output_files =>
      inr (match list_find (fun out_file => stem out_file = base_name)
                   output_files with
           | Some (_, f) => Some f
           | None => None
           end)
  end = (inl e : exn + option pystr) ->
  glob_error output_pattern = Some e.
Proof.
  unfold glob. destruct (glob_error output_pattern) as [e' | ];
    [ now intros [= ->] | discriminate ].
Qed.

Lemma method_2_exists base_name o :
  match glob fnmatch files output_pattern with
  | inl e => inl e
  | inr output_files =>
      inr (match list_find (fun out_file => stem out_file = base_name)
                   output_files with
           | Some (_, f) => Some f
           | None => None
           end)
  end = (inr (Some o) : exn + option pystr) ->
  exists_in files o = true.
Proof.
  unfold glob, exists_in.
  destruct (glob_error output_pattern); [ discriminate | ].
  destruct (list_find _ _) as [[k g] | ] eqn:Hfind; [ | discriminate ].
  intros [= <-]. apply list_find_Some in Hfind as (Hk & _).
  apply bool_decide_eq_true.
  apply list_elem_of_lookup_2, glob_matches_elem_of in Hk. tauto.
Qed.

(** Method 2 is the only place where looking for the output file can
    raise, and what it raises is what [glob] raises. *)
Lemma find_output_raises input_file e :
  find_output fnmatch files output_pattern input_file = inl e ->
  glob_error output_pattern = Some e.
Proof.
  unfold find_output. cbv zeta.
  destruct (suffix (path_name output_pattern)) as [ | c ext].
  - apply method_2_raises.
  - destruct (exists_in files (with_suffix input_file (c :: ext)));
      [ discriminate | apply method_2_raises ].
Qed.

(** The output file either method finds exists. *)
Lemma find_output_exists input_file o :
  find_output fnmatch files output_pattern input_file = inr (Some o) ->
  exists_in files o = true.
Proof.
  unfold find_output. cbv zeta.
  destruct (suffix (path_name output_pattern)) as [ | c ext].
  - apply method_2_exists.
  - destruct (exists_in files (with_suffix input_file (c :: ext))) eqn:Hex;
      [ now intros [= <-] | apply method_2_exists ].
Qed.

(** The ways one round of the loop can go. *)
Lemma load_one_cases input_file :
  (exists e,
      find_output fnmatch files output_pattern input_file = inl e
      /\ glob_error output_pattern = Some e
      /\ load_one fnmatch files output_pattern input_file = ([], inl e))
  \/ (find_output fnmatch files output_pattern input_file = inr None
      /\ load_one fnmatch files output_pattern input_file
         = ([skip_warning input_file], inr None))
  \/ (exists o e,
        find_output fnmatch files output_pattern input_file = inr (Some o)
        /\ (read_file files input_file = Unreadable e
            \/ (is_Some (text_of files input_file)
                /\ read_file files o = Unreadable e))
        /\ load_one fnmatch files output_pattern input_file
           = ([read_error_line input_file o e], inr None))
  \/ (exists o i e,
        find_output fnmatch files output_pattern input_file = inr (Some o)
        /\ read_file files input_file = Readable i
        /\ read_file files o = Readable e
        /\ load_one fnmatch files output_pattern input_file
           = ([], inr (Some (test_case_of input_file i e)))).
Proof.
  unfold load_one, text_of.
  destruct (find_output fnmatch files output_pattern input_file)
    as [e | [o | ]] eqn:Hfind.
  - left. exists e. split; [ reflexivity | split; [ | reflexivity ] ].
    now apply (find_output_raises input_file).
  - right; right. rewrite (find_output_exists _ _ Hfind). cbn [negb].
    destruct (read_file files input_file) as [i | e] eqn:Hi.
    + destruct (read_file files o) as [e' | e] eqn:Ho.
      * right. exists o, i, e'. now repeat split.
      * left. exists o, e. split; [ reflexivity | split; [ | reflexivity ] ].
        right. split; [ now exists i | exact Ho ].
    + left. exists o, e.
      split; [ reflexivity | split; [ now left | reflexivity ] ].
  - right; left. now split.
Qed.


Lemma loop_account_nil : loop_account fnmatch files output_pattern [] [] [].
Proof.
  unfold loop_account. repeat split; try constructor.
  - intros f tc Hf. now apply elem_of_nil in Hf.
  - exists []. repeat split; constructor.
Qed.

Lemma loop_account_line f rest line out tcs :
  (line = skip_warning f \/ exists o e, line = read_error_line f o e) ->
  (load_one fnmatch files output_pattern f).2 = inr None ->
  loop_account fnmatch files output_pattern rest out tcs -> loop_account fnmatch files output_pattern (f :: rest) (line :: out) tcs.
Proof.
  intros Hline Hone (Hlen & Hout & Htcs & Hmem & kept & Hsub & Hn & Hi & Hr).
  unfold loop_account. split; [ cbn; lia | ].
  split; [ | split; [ | split ] ].
  - constructor; [ exists f; split; [ now left | exact Hline ] | ].
    eapply Forall_impl; [ exact Hout | ].
    intros l (g & Hg & H). exists g. split; [ now right | exact H ].
  - eapply Forall_impl; [ exact Htcs | ].
    intros tc (g & o & i & e & Hg & H). exists g, o, i, e.
    split; [ now right | exact H ].
  - intros g tc [-> | Hg]%elem_of_cons Hg2.
    + rewrite Hone in Hg2. discriminate.
    + now apply (Hmem g).
  - exists kept. split; [ now apply sublist_cons | now repeat split ].
Qed.

Lemma loop_account_case f rest o i e out tcs :
  find_output fnmatch files output_pattern f = inr (Some o) ->
  read_file files f = Readable i ->
  read_file files o = Readable e ->
  (load_one fnmatch files output_pattern f).2
  = inr (Some (test_case_of f i e)) ->
  loop_account fnmatch files output_pattern rest out tcs ->
  loop_account fnmatch files output_pattern (f :: rest) out (test_case_of f i e :: tcs).
Proof.
  intros Hfind Hfi Hfo Hone
    (Hlen & Hout & Htcs & Hmem & kept & Hsub & Hn & Hi & Hr).
  unfold loop_account. split; [ cbn; lia | ].
  split; [ | split; [ | split ] ].
  - eapply Forall_impl; [ exact Hout | ].
    intros l (g & Hg & H). exists g. split; [ now right | exact H ].
  - constructor.
    + exists f, o, i, e. split; [ now left | now repeat split ].
    + eapply Forall_impl; [ exact Htcs | ].
      intros tc (g & o' & i' & e' & Hg & H). exists g, o', i', e'.
      split; [ now right | exact H ].
  - intros g tc [-> | Hg]%elem_of_cons Hg2.
    + rewrite Hone in Hg2. injection Hg2 as <-. now left.
    + right. now apply (Hmem g).
  - assert (Htext : text_of files f = Some i)
      by (unfold text_of; now rewrite Hfi).
    exists (f :: kept). split; [ now apply sublist_skip | ].
    cbn [map]. rewrite Hn, Hi, Htext.
    split; [ | split ].
    + f_equal.
    + f_equal.
    + constructor; [ now rewrite Htext | exact Hr ].
Qed.

(** The loop over the input files.  When it returns, every file has given
    either one test case or one printed line, and every test case is built
    from a file of the list, its text and the text of the output file
    found for it, in the order of the list.  It raises only what [glob]
    raises for the output pattern. *)
Lemma load_loop_account (input_files : list pystr) :
  (exists out tcs,
      load_loop fnmatch files output_pattern input_files = (out, inr tcs)
      /\ loop_account fnmatch files output_pattern input_files out tcs)
  \/ (exists out e,
        load_loop fnmatch files output_pattern input_files = (out, inl e)
        /\ glob_error output_pattern = Some e).
Proof.
  induction input_files as [ | f rest IH].
  - left. exists [], []. split; [ reflexivity | apply loop_account_nil ].
  - cbn [load_loop].
    destruct (load_one_cases f)
      as [(e & Hfind & Hglob & Hone)
         | [(Hfind & Hone)
           | [(o & e & Hfind & Hread & Hone)
             | (o & i & e & Hfind & Hi & Ho & Hone)]]];
      rewrite Hone; cbn [io_bind].
    + right. now exists [], e.
    + destruct IH as [(out & tcs & -> & Hacc) | (out & e & -> & Hglob)].
      * left. exists (skip_warning f :: out), tcs.
        cbn [io_bind io_ret]. rewrite app_nil_r. split; [ reflexivity | ].
        apply loop_account_line; [ now left | now rewrite Hone | exact Hacc ].
      * right. exists (skip_warning f :: out), e. now split.
    + destruct IH as [(out & tcs & -> & Hacc) | (out & e' & -> & Hglob)].
      * left. exists (read_error_line f o e :: out), tcs.
        cbn [io_bind io_ret]. rewrite app_nil_r. split; [ reflexivity | ].
        apply loop_account_line;
          [ right; now exists o, e | now rewrite Hone | exact Hacc ].
      * right. exists (read_error_line f o e :: out), e'. now split.
    + destruct IH as [(out & tcs & -> & Hacc) | (out & e' & -> & Hglob)].
      * left. exists out, (test_case_of f i e :: tcs).
        cbn [io_bind io_ret]. rewrite app_nil_r. split; [ reflexivity | ].
        apply (loop_account_case f rest o); try assumption.
        now rewrite Hone.
      * right. exists out, e'. now split.
Qed.


Lemma load_loop_returned (input_files : list pystr) out tcs :
  load_loop fnmatch files output_pattern input_files = (out, inr tcs) ->
  loop_account fnmatch files output_pattern input_files out tcs.
Proof.
  intros Hloop.
  destruct (load_loop_account input_files)
    as [(out' & tcs' & Hl & Hacc) | (out' & e & Hl & _)];
    rewrite Hloop in Hl; [ | discriminate ].
  now injection Hl as <- <-.
Qed.


End DiscoveryProperties.

Lemma sorted_elem_of l x : x ∈ sorted l <-> x ∈ l.
Proof. now rewrite sorted_Permutation. Qed.

Lemma sorted_nil_iff l : sorted l = [] <-> l = [].
Proof.
  split; [ | now intros -> ].
  intros H. apply Permutation_nil_r. rewrite <- H.
  symmetry. apply sorted_Permutation.
Qed.

Section Loaded.

Variable fnmatch : pystr -> pystr -> bool.
Variable files : listing.
Variables test_dir input_pattern output_pattern : pystr.

(** With an accepted input pattern that matches something, the load is
    the loop over the sorted matches. *)
Lemma loaded_is_loop :
  glob_error input_pattern = None ->
  glob_matches fnmatch files input_pattern <> [] ->
  load_tests_from_directory fnmatch (Some files) test_dir input_pattern
    output_pattern
  = load_loop fnmatch files output_pattern
      (sorted (glob_matches fnmatch files input_pattern)).
Proof.
  intros Hok Hne. unfold load_tests_from_directory.
  rewrite (glob_accepted _ _ _ Hok).
  destruct (sorted (glob_matches fnmatch files input_pattern)) eqn:Hs;
    [ | reflexivity ].
  apply (proj1 (sorted_nil_iff _)) in Hs. contradiction.
Qed.

(** A load that returns went through the loop. *)
Lemma loaded_returned out tcs :
  load_tests_from_directory fnmatch (Some files) test_dir input_pattern
    output_pattern = (out, inr tcs) ->
  glob_error input_pattern = None
  /\ glob_matches fnmatch files input_pattern <> []
  /\ load_loop fnmatch files output_pattern
       (sorted (glob_matches fnmatch files input_pattern)) = (out, inr tcs).
Proof.
  intros Hload.
  assert (Hok : glob_error input_pattern = None).
  { unfold load_tests_from_directory, glob in Hload.
    destruct (glob_error input_pattern); [ discriminate | reflexivity ]. }
  assert (Hne : glob_matches fnmatch files input_pattern <> []).
  { intros Hnil. unfold load_tests_from_directory in Hload.
    rewrite (glob_accepted _ _ _ Hok), Hnil in Hload. discriminate. }
  split; [ exact Hok | split; [ exact Hne | ] ].
  now rewrite <- (loaded_is_loop Hok Hne).
Qed.

End Loaded.



(** C10. The test cases [load_tests_from_directory] returns follow the
    input files sorted by name: they come from a subsequence of the sorted
    list of the files matching the input pattern, each named after the stem
    of its input file and holding that file's text, and the sorted list is
    the same whatever the order in which the file system enumerates the
    directory. *)
Theorem load_tests_sorted_by_file_name (fnmatch : pystr -> pystr -> bool)
    (files : listing) (test_dir input_pattern output_pattern : pystr)
    (out : list pystr) (test_cases : list (gmap string pystr)) :
  load_tests_from_directory fnmatch (Some files) test_dir input_pattern
    output_pattern = (out, inr test_cases) ->
  exists input_files : list pystr,
    input_files `sublist_of` sorted (glob_matches fnmatch files input_pattern)
    /\ StronglySorted str_leR
         (sorted (glob_matches fnmatch files input_pattern))
    /\ StronglySorted str_leR input_files
    /\ map (fun tc => tc !! "name") test_cases
       = map (fun f => Some (stem f)) input_files
    /\ map (fun tc => tc !! "input") test_cases
       = map (text_of files) input_files
    /\ Forall (fun f => is_Some (text_of files f)) input_files
    /\ (forall files' : listing,
          files' ≡ₚ files ->
          sorted (glob_matches fnmatch files' input_pattern)
          = sorted (glob_matches fnmatch files input_pattern)).
Proof.
  intros Hload.
  apply loaded_returned in Hload as (_ & _ & Hloop).
  apply load_loop_returned in Hloop
    as (_ & _ & _ & _ & kept & Hsub & Hnames & Hinps & Hread).
  exists kept.
  split; [ exact Hsub | ].
  split; [ apply sorted_StronglySorted | ].
  split; [ eapply StronglySorted_sublist; [ exact Hsub | ];
           apply sorted_StronglySorted | ].
  split; [ exact Hnames | split; [ exact Hinps | split; [ exact Hread | ] ] ].
  intros files' Hperm. apply sorted_Permutation_eq.
  unfold glob_matches. now rewrite Hperm.
Qed.

Lemma load_tests_sorted_by_file_name_witness :
  exists input_files : list pystr,
    input_files
      `sublist_of` sorted (glob_matches fnmatch_simple sample_dir (py "*.in"))
    /\ StronglySorted str_leR
         (sorted (glob_matches fnmatch_simple sample_dir (py "*.in")))
    /\ StronglySorted str_leR input_files
    /\ map (fun tc => tc !! "name")
         [ ({[ "name" := py "a"; "input" := py "1 2";
               "expected_output" := py "3" ]} : gmap string pystr);
           {[ "name" := py "c"; "input" := py "4 5";
              "expected_output" := py "9" ]} ]
       = map (fun f => Some (stem f)) input_files
    /\ map (fun tc => tc !! "input")
         [ ({[ "name" := py "a"; "input" := py "1 2";
               "expected_output" := py "3" ]} : gmap string pystr);
           {[ "name" := py "c"; "input" := py "4 5";
              "expected_output" := py "9" ]} ]
       = map (text_of sample_dir) input_files
    /\ Forall (fun f => is_Some (text_of sample_dir f)) input_files
    /\ (forall files' : listing,
          files' ≡ₚ sample_dir ->
          sorted (glob_matches fnmatch_simple files' (py "*.in"))
          = sorted (glob_matches fnmatch_simple sample_dir (py "*.in"))).
Proof.
  apply (load_tests_sorted_by_file_name fnmatch_simple sample_dir (py "tests")
           (py "*.in") (py "*.out") [skip_warning (py "b.in")]).
  vm_compute. reflexivity.
Defined.

(** ** The scenarios of the specification, run on the model *)

(** The identity-copy program given ["hello\n"], expecting ["hello"]. *)
Example identity_copy_passes :
  let r :=
    (run_test_case echo_run (init (py "dp.py") 5) (py "hello" ++ [10%N])
       (py "hello") None tt).1.1 in
  r !! "passed" = Some (VBool true)
  /\ r !! "actual_output" = Some (VStr (py "hello"))
  /\ r !! "test_name" = Some (VStr (py "Test 1")).
Proof. vm_compute. repeat split. Qed.

(** A program that always writes ["3"], on two test cases: the second
    fails, and the score is 1 out of 2. *)
Example second_case_fails :
  let test_cases : list (gmap string pystr) :=
    [ {[ "input" := py "1 2"; "expected_output" := py "3" ]};
      {[ "input" := py "2 2"; "expected_output" := py "5" ]} ] in
  let call :=
    run_multiple_tests scripted_run (init (py "dp.py") 5) test_cases
      [Completed (py "3") [] 0; Completed (py "3") [] 0] in
  map (fun r => r !! "passed") call.1.1
  = [Some (VBool true); Some (VBool false)]
  /\ map (fun r => r !! "actual_output") call.1.1
     = [Some (VStr (py "3")); Some (VStr (py "3"))]
  /\ get_score call.1.2 = ([], inr (1, 2)).
Proof. vm_compute. repeat split. Qed.

(** * Further properties of the code *)

(** ** One outcome, continued *)

(** X1. White space around the standard output or around the expected output
    never changes the verdict, nor what is stored on the success path. *)
Theorem verdict_ignores_outer_white_space {world : Type}
    (run : world -> pystr -> pystr -> Z -> run_result * world)
    (self : TestCaseGrader) (input_data : pystr) (test_name : option pystr)
    (w w' : world) (stdout stderr expected : pystr) (returncode : Z)
    (pre post pre' post' : pystr) :
  all_space pre -> all_space post -> all_space pre' -> all_space post' ->
  run w (code_file self) input_data (timeout self)
    = (Completed (pre ++ stdout ++ post) stderr returncode, w') ->
  let r :=
    (run_test_case run self input_data (pre' ++ expected ++ post')
       test_name w).1.1 in
  r !! "passed" = Some (VBool (bool_decide (strip stdout = strip expected)))
  /\ r !! "actual_output" = Some (VStr (strip stdout))
  /\ r !! "expected_output" = Some (VStr (strip expected)).
Proof.
  intros Hpre Hpost Hpre' Hpost' Hrun r.
  unfold r, run_test_case. rewrite Hrun. cbn [fst snd].
  rewrite !strip_padding by assumption.
  repeat split; dict_lookup.
Qed.

Lemma verdict_ignores_outer_white_space_witness :
  let r :=
    (run_test_case scripted_run (init (py "dp.py") 5) (py "1 2")
       ([9%N] ++ py "a b" ++ [10%N]) None
       [Completed ([32%N; 32%N] ++ py "a b" ++ [13%N; 10%N]) [] 0]).1.1 in
  r !! "passed" = Some (VBool (bool_decide (strip (py "a b") = strip (py "a b"))))
  /\ r !! "actual_output" = Some (VStr (strip (py "a b")))
  /\ r !! "expected_output" = Some (VStr (strip (py "a b"))).
Proof.
  refine (verdict_ignores_outer_white_space scripted_run (init (py "dp.py") 5)
            (py "1 2") None
            [Completed ([32%N; 32%N] ++ py "a b" ++ [13%N; 10%N]) [] 0] []
            (py "a b") [] (py "a b") 0 [32%N; 32%N] [13%N; 10%N] [9%N] [10%N]
            _ _ _ _ eq_refl);
    repeat constructor.
Defined.

(** X2. On the success path both stored texts are in trimmed form (trimming
    them again changes nothing) and [passed] says whether the two stored
    texts are equal. *)
Theorem stored_outputs_are_trimmed {world : Type}
    (run : world -> pystr -> pystr -> Z -> run_result * world)
    (self : TestCaseGrader) (input_data expected_output : pystr)
    (test_name : option pystr) (w : world) :
  let r :=
    (run_test_case run self input_data expected_output test_name w).1.1 in
  match (run w (code_file self) input_data (timeout self)).1 with
  | Completed _ _ _ =>
      exists a e,
        r !! "actual_output" = Some (VStr a)
        /\ r !! "expected_output" = Some (VStr e)
        /\ strip a = a /\ strip e = e
        /\ r !! "passed" = Some (VBool (bool_decide (a = e)))
  | TimeoutExpired | Raised _ =>
      r !! "actual_output" = Some VNone
      /\ r !! "passed" = Some (VBool false)
  end.
Proof.
  unfold run_test_case.
  destruct (run w (code_file self) input_data (timeout self))
    as [[out err rc | | e] w']; cbn [fst snd].
  - exists (strip out), (strip expected_output).
    rewrite !strip_idempotent. repeat split; dict_lookup.
  - split; dict_lookup.
  - split; dict_lookup.
Qed.

(** X3. The keys of an outcome: the success path has [stderr] and no [error],
    the two failure paths have [error] and no [stderr]; [stderr] is [None]
    when nothing was written to the standard error. *)
Theorem outcome_keys {world : Type}
    (run : world -> pystr -> pystr -> Z -> run_result * world)
    (self : TestCaseGrader) (input_data expected_output : pystr)
    (test_name : option pystr) (w : world) :
  let r :=
    (run_test_case run self input_data expected_output test_name w).1.1 in
  let common : gset string :=
    {[ "test_name"; "passed"; "input"; "expected_output"; "actual_output";
       "return_code" ]} in
  match (run w (code_file self) input_data (timeout self)).1 with
  | Completed _ stderr _ =>
      dom r = common ∪ {[ "stderr" ]}
      /\ r !! "error" = None
      /\ r !! "stderr"
         = Some (match stderr with [] => VNone | _ => VStr stderr end)
  | TimeoutExpired | Raised _ =>
      dom r = common ∪ {[ "error" ]}
      /\ r !! "stderr" = None
  end.
Proof.
  unfold run_test_case.
  destruct (run w (code_file self) input_data (timeout self))
    as [[out err rc | | e] w']; cbn [fst snd];
    rewrite !dom_insert_L, dom_empty_L;
    repeat split; try dict_lookup; set_solver.
Qed.


(** ** Sessions *)

Lemma run_test_case_well_formed {world : Type}
    (run : world -> pystr -> pystr -> Z -> run_result * world)
    (self : TestCaseGrader) (input_data expected_output : pystr)
    (test_name : option pystr) (w : world) :
  well_formed
    (run_test_case run self input_data expected_output test_name w).1.1.
Proof.
  unfold run_test_case, well_formed.
  destruct (run w (code_file self) input_data (timeout self))
    as [[out err rc | | e] w']; cbn [fst snd];
    (split; [ eexists; dict_lookup | ]);
    repeat split; eexists; dict_lookup.
Qed.

Lemma run_loop_invariants {world : Type}
    (run : world -> pystr -> pystr -> Z -> run_result * world)
    (test_cases : list (gmap string pystr)) :
  forall (self : TestCaseGrader) (w : world),
    let self' := (run_loop run test_cases self w).1 in
    code_file self' = code_file self
    /\ timeout self' = timeout self
    /\ results self `prefix_of` results self'
    /\ (Forall well_formed (results self) ->
        Forall well_formed (results self')).
Proof.
  induction test_cases as [ | tc rest IH]; intros self w.
  - cbn. repeat split; auto.
  - cbn [run_loop].
    pose proof (run_test_case_appends run self (default [] (tc !! "input"))
                  (default [] (tc !! "expected_output")) (tc !! "name") w)
      as [Happ _].
    pose proof (run_test_case_well_formed run self (default [] (tc !! "input"))
                  (default [] (tc !! "expected_output")) (tc !! "name") w)
      as Hwf.
    destruct (run_test_case run self (default [] (tc !! "input"))
                (default [] (tc !! "expected_output")) (tc !! "name") w)
      as [[r self1] w1].
    cbn [fst snd] in Happ, Hwf. subst self1.
    destruct (IH (set_results self (results self ++ [r])) w1)
      as (Hcf & Hto & Hpre & Hall).
    cbn [code_file timeout results set_results] in Hcf, Hto, Hpre, Hall.
    repeat split; try assumption.
    + etransitivity; [ | exact Hpre ]. now apply prefix_app_r.
    + intros H. apply Hall. apply Forall_app. split; [ exact H | ].
      now constructor.
Qed.

Lemma passed_count_bounds rs :
  0 <= passed_count rs <= Z.of_nat (length rs).
Proof.
  unfold passed_count. split; [ lia | ].
  apply inj_le. apply List.filter_length_le.
Qed.

Lemma passed_count_cons r rs :
  passed_count (r :: rs)
  = (if is_passed r then 1 else 0) + passed_count rs.
Proof.
  unfold passed_count. cbn [List.filter].
  destruct (is_passed r); cbn [length]; lia.
Qed.

(** [count_passed] either counts the truthy [passed] fields or stops at
    the first dictionary without the key. *)
Lemma count_passed_spec rs :
  (Forall (fun r => is_Some (r !! "passed")) rs
   /\ count_passed rs = ([], inr (passed_count rs)))
  \/ (Exists (fun r => r !! "passed" = None) rs
      /\ count_passed rs = ([], inl (KeyError "passed"))).
Proof.
  induction rs as [ | r rs IH].
  - left. split; [ constructor | reflexivity ].
  - cbn [count_passed]. unfold getitem.
    destruct (r !! "passed") as [v | ] eqn:Hv.
    + destruct IH as [[Hall ->] | [Hex ->]].
      * left. split; [ constructor; [ now rewrite Hv | exact Hall ] | ].
        cbn. rewrite passed_count_cons. unfold is_passed. now rewrite Hv.
      * right. split; [ now apply Exists_cons_tl | reflexivity ].
    + right. split; [ now apply Exists_cons_hd | reflexivity ].
Qed.

Lemma well_formed_has_passed rs :
  Forall well_formed rs -> Forall (fun r => is_Some (r !! "passed")) rs.
Proof.
  intros H. eapply Forall_impl; [ exact H | ].
  intros r ((b & Hb) & _). now rewrite Hb.
Qed.

Lemma count_passed_well_formed rs :
  Forall well_formed rs -> count_passed rs = ([], inr (passed_count rs)).
Proof.
  intros Hwf. destruct (count_passed_spec rs) as [[_ H] | [Hex _]];
    [ exact H | ].
  apply well_formed_has_passed in Hwf.
  apply Exists_exists in Hex as (r & Hin & Hnone).
  rewrite Forall_forall in Hwf. specialize (Hwf r Hin).
  rewrite Hnone in Hwf. now destruct Hwf.
Qed.

(** X4. A batch never changes the program under test or the timeout, and the
    loop over test cases only ever appends: the outcomes recorded before
    are still there, in place, afterwards. *)
Theorem batch_only_appends {world : Type}
    (run : world -> pystr -> pystr -> Z -> run_result * world)
    (self : TestCaseGrader) (test_cases : list (gmap string pystr))
    (w : world) :
  let after_batch := (run_multiple_tests run self test_cases w).1.2 in
  let after_loop := (run_loop run test_cases self w).1 in
  code_file after_batch = code_file self
  /\ timeout after_batch = timeout self
  /\ code_file after_loop = code_file self
  /\ timeout after_loop = timeout self
  /\ results self `prefix_of` results after_loop
  /\ length (results after_loop)
     = (length (results self) + length test_cases)%nat.
Proof.
  intros after_batch after_loop.
  destruct (run_loop_invariants run test_cases self w) as (Hcf & Hto & Hpre & _).
  destruct (run_loop_invariants run test_cases (set_results self []) w)
    as (Hcf' & Hto' & _).
  destruct (run_loop_spec run test_cases self w) as (new & Hres & Hlen & _).
  unfold after_batch, after_loop, run_multiple_tests.
  destruct (run_loop run test_cases (set_results self []) w) as [s1 w1].
  cbn [fst snd code_file timeout set_results] in *.
  repeat split; try assumption.
  rewrite Hres, length_app, Hlen. reflexivity.
Qed.

(** ** The score *)

(** X5. [get_score] prints nothing.  It returns [(passed, total)] with
    [total] the number of outcomes and [0 <= passed <= total], unless some
    recorded dictionary has no [passed] key, in which case it raises
    [KeyError('passed')]. *)
Theorem get_score_bounds (self : TestCaseGrader) :
  (exists passed,
      get_score self = ([], inr (passed, Z.of_nat (length (results self))))
      /\ 0 <= passed <= Z.of_nat (length (results self))
      /\ Forall (fun r => is_Some (r !! "passed")) (results self))
  \/ (get_score self = ([], inl (KeyError "passed"))
      /\ Exists (fun r => r !! "passed" = None) (results self)).
Proof.
  unfold get_score.
  destruct (results self) as [ | r rs] eqn:Hrs.
  - left. exists 0. repeat split; [ cbn; lia .. | constructor ].
  - destruct (count_passed_spec (r :: rs)) as [[Hall ->] | [Hex ->]].
    + left. exists (passed_count (r :: rs)).
      split; [ reflexivity | split; [ apply passed_count_bounds | exact Hall ] ].
    + right. split; [ reflexivity | exact Hex ].
Qed.

(** X6. After a batch, [get_score] returns the number of passing outcomes and
    the number of test cases: on outcomes the grader recorded itself it
    never raises. *)
Theorem get_score_after_batch {world : Type}
    (run : world -> pystr -> pystr -> Z -> run_result * world)
    (self : TestCaseGrader) (test_cases : list (gmap string pystr))
    (w : world) :
  let call := run_multiple_tests run self test_cases w in
  get_score call.1.2
  = ([], inr (passed_count call.1.1, Z.of_nat (length test_cases)))
  /\ 0 <= passed_count call.1.1 <= Z.of_nat (length test_cases).
Proof.
  intros call.
  destruct (run_multiple_tests_spec run self test_cases w)
    as (_ & Hsame & Hlen & _).
  fold call in Hsame, Hlen.
  assert (Hwf : Forall well_formed (results call.1.2)).
  { unfold call, run_multiple_tests.
    pose proof (run_loop_invariants run test_cases (set_results self []) w)
      as (_ & _ & _ & Hall).
    destruct (run_loop run test_cases (set_results self []) w) as [s1 w1].
    cbn [fst snd] in *. apply Hall. constructor. }
  split.
  - unfold get_score. rewrite Hsame in Hwf |- *.
    destruct call.1.1 as [ | r rs] eqn:Hrs.
    + destruct test_cases; [ reflexivity | discriminate ].
    + rewrite (count_passed_well_formed _ Hwf). cbn [io_bind io_ret app].
      now rewrite Hlen.
  - rewrite <- Hlen. apply passed_count_bounds.
Qed.

(** ** The report *)

Section Report.

Variable repr : pyval -> pystr.
Variable format_1f : Z * Z -> pystr.

Lemma print_if_present_lines label d key :
  print_if_present label d key = (optional_line label (d !! key), inr tt).
Proof.
  unfold print_if_present, optional_line.
  destruct (d !! key) as [v | ]; [ | reflexivity ].
  now destruct (truthy v).
Qed.

(** What [print_result] prints for a dictionary with the five keys it
    reads: the status line alone when the outcome passed, otherwise also
    the input, the expected and the received text, then the [error] and
    the [stderr] fields when present and truthy. *)
Lemma print_result_lines (r : gmap string pyval) b n i e a :
  r !! "passed" = Some (VBool b) ->
  r !! "test_name" = Some n ->
  r !! "input" = Some i ->
  r !! "expected_output" = Some e ->
  r !! "actual_output" = Some a ->
  print_result repr r
  = (status_line b (str_of_val n)
     :: (if b then []
         else [py "  Input: " ++ repr i; py "  Expected: " ++ repr e;
               py "  Got: " ++ repr a]
              ++ optional_line (py "  Error: ") (r !! "error")
              ++ optional_line (py "  Stderr: ") (r !! "stderr")),
     inr tt).
Proof.
  intros Hb Hn Hi He Ha.
  unfold print_result, getitem. rewrite Hb, Hn, Hi, He, Ha.
  rewrite !print_if_present_lines.
  destruct b; cbn; [ reflexivity | ].
  rewrite ?app_nil_r. reflexivity.
Qed.

Lemma print_result_well_formed r :
  well_formed r ->
  exists line lines, print_result repr r = (line :: lines, inr tt).
Proof.
  intros ((b & Hb) & (n & Hn) & (i & Hi) & (e & He) & (a & Ha)).
  rewrite (print_result_lines r b n i e a Hb Hn Hi He Ha). eauto.
Qed.

Lemma print_results_well_formed rs :
  Forall well_formed rs ->
  exists body, print_results repr rs = (body, inr tt)
               /\ (length rs <= length body)%nat.
Proof.
  induction 1 as [ | r rs Hr _ (body & Hbody & Hlen)].
  - exists []. now split.
  - destruct (print_result_well_formed r Hr) as (line & lines & Hline).
    exists ((line :: lines) ++ body). cbn [print_results].
    rewrite Hline. cbn [io_bind]. rewrite Hbody. split; [ reflexivity | ].
    rewrite length_app. cbn [length]. lia.
Qed.

(** X7. After a batch with at least one test case, [print_summary] returns
    normally: three header lines with the same numbers [get_score]
    returns, at least one line per outcome, and three closing lines with
    the score again and its percentage. *)
Theorem print_summary_after_batch {world : Type}
    (run : world -> pystr -> pystr -> Z -> run_result * world)
    (self : TestCaseGrader) (test_case : gmap string pystr)
    (rest : list (gmap string pystr)) (w : world) :
  let call := run_multiple_tests run self (test_case :: rest) w in
  let passed := passed_count call.1.1 in
  let total := Z.of_nat (length (test_case :: rest)) in
  exists body,
    print_summary repr format_1f call.1.2
    = ([ [10%N] ++ rule;
         py "TEST SUMMARY: " ++ str_of_int passed ++ py "/"
         ++ str_of_int total ++ py " tests passed";
         rule ]
       ++ body
       ++ [ [10%N] ++ rule;
            py "Score: " ++ str_of_int passed ++ py "/" ++ str_of_int total
            ++ py " (" ++ format_1f (100 * passed, total) ++ py "%)";
            rule ++ [10%N] ],
       inr tt)
    /\ (length (test_case :: rest) <= length body)%nat.
Proof.
  intros call passed total.
  destruct (run_multiple_tests_spec run self (test_case :: rest) w)
    as (_ & Hsame & Hlen & _).
  fold call in Hsame, Hlen.
  assert (Hwf : Forall well_formed (results call.1.2)).
  { unfold call, run_multiple_tests.
    pose proof (run_loop_invariants run (test_case :: rest)
                  (set_results self []) w) as (_ & _ & _ & Hall).
    destruct (run_loop run (test_case :: rest) (set_results self []) w)
      as [s1 w1].
    cbn [fst snd] in *. apply Hall. constructor. }
  rewrite Hsame in Hwf.
  destruct (print_results_well_formed _ Hwf) as (body & Hbody & Hlenb).
  exists body. split; [ | now rewrite <- Hlen ].
  unfold print_summary. rewrite Hsame.
  destruct call.1.1 as [ | r rs] eqn:Hrs; [ discriminate | ].
  rewrite (count_passed_well_formed _ Hwf), Hbody.
  unfold truediv. rewrite Hlen.
  change (Z.of_nat (length (test_case :: rest))) with total.
  destruct (Z.eqb_spec total 0) as [H0 | _];
    [ unfold total in H0; cbn [length] in H0; lia | ].
  cbn [io_bind io_ret print app]. rewrite ?app_nil_r.
  reflexivity.
Qed.

(** X8. How one run shows in the report.  A passing run is the status line
    alone.  A mismatch shows input, expected and received text, and the
    standard error if there was any.  A timeout shows [None] as received
    and the timeout message; another failure shows [None] and the text of
    the exception, unless that text is empty. *)
Theorem report_of_one_run {world : Type}
    (run : world -> pystr -> pystr -> Z -> run_result * world)
    (self : TestCaseGrader) (input_data expected_output : pystr)
    (test_name : option pystr) (w : world) :
  let r :=
    (run_test_case run self input_data expected_output test_name w).1.1 in
  let name := name_or_default self test_name in
  let input_line := py "  Input: " ++ repr (VStr input_data) in
  print_result repr r
  = (match (run w (code_file self) input_data (timeout self)).1 with
     | Completed stdout stderr _ =>
         if bool_decide (strip stdout = strip expected_output)
         then [status_line true name]
         else [status_line false name; input_line;
               py "  Expected: " ++ repr (VStr (strip expected_output));
               py "  Got: " ++ repr (VStr (strip stdout))]
              ++ match stderr with
                 | [] => []
                 | _ => [py "  Stderr: " ++ stderr]
                 end
     | TimeoutExpired =>
         [status_line false name; input_line;
          py "  Expected: " ++ repr (VStr expected_output);
          py "  Got: " ++ repr VNone;
          py "  Error: Timeout: Execution exceeded "
          ++ str_of_int (timeout self) ++ py " seconds"]
     | Raised str_e =>
         [status_line false name; input_line;
          py "  Expected: " ++ repr (VStr expected_output);
          py "  Got: " ++ repr VNone]
         ++ match str_e with
            | [] => []
            | _ => [py "  Error: " ++ str_e]
            end
     end, inr tt).
Proof.
  intros r name input_line. unfold r, run_test_case.
  destruct (run w (code_file self) input_data (timeout self))
    as [[out err rc | | e] w']; cbn [fst snd].
  - erewrite print_result_lines; [ | dict_lookup .. ].
    assert (He : forall m : gmap string pyval,
               <["stderr" := match err with [] => VNone | _ => VStr err end]> m
               !! "stderr"
               = Some (match err with [] => VNone | _ => VStr err end))
      by (intros; apply lookup_insert_eq).
    repeat (rewrite lookup_insert_ne by discriminate).
    rewrite He, lookup_empty.
    destruct (bool_decide (strip out = strip expected_output));
      [ reflexivity | ].
    now destruct err.
  - erewrite print_result_lines; [ | dict_lookup .. ].
    repeat (rewrite lookup_insert_ne by discriminate).
    rewrite lookup_insert_eq.
    repeat (rewrite lookup_insert_ne by discriminate).
    rewrite lookup_empty. reflexivity.
  - erewrite print_result_lines; [ | dict_lookup .. ].
    repeat (rewrite lookup_insert_ne by discriminate).
    rewrite lookup_insert_eq.
    repeat (rewrite lookup_insert_ne by discriminate).
    rewrite lookup_empty. now destruct e.
Qed.

End Report.

(** ** Names in a batch *)

(** X9. In a batch none of whose test cases has a name, no two outcomes share
    a name. *)
Theorem unnamed_batch_names_distinct {world : Type}
    (run : world -> pystr -> pystr -> Z -> run_result * world)
    (self : TestCaseGrader) (test_cases : list (gmap string pystr))
    (w : world) :
  Forall (fun tc => tc !! "name" = None \/ tc !! "name" = Some [])
    test_cases ->
  NoDup (map (fun r => r !! "test_name")
           (run_multiple_tests run self test_cases w).1.1).
Proof.
  intros Hnames.
  destruct (run_multiple_tests_spec run self test_cases w)
    as (_ & _ & _ & _ & ->).
  rewrite (imap_ext _
             (fun k _ => Some (VStr (py "Test " ++ str_of_int (Z.of_nat k + 1))))).
  - rewrite imap_seq_0. apply NoDup_fmap_2_strong; [ | apply NoDup_seq ].
    intros i j _ _ [= H]. try apply app_inv_head in H.
    apply str_of_int_inj in H. lia.
  - intros k tc Hk. cbn. unfold batch_name.
    rewrite Forall_forall in Hnames.
    destruct (Hnames tc) as [-> | ->]; [ | reflexivity .. ].
    eapply list_elem_of_lookup_2. exact Hk.
Qed.

Lemma unnamed_batch_names_distinct_witness :
  NoDup (map (fun r => r !! "test_name")
           (run_multiple_tests scripted_run (init (py "dp.py") 5)
              [ ({[ "input" := py "1 2"; "expected_output" := py "3" ]}
                 : gmap string pystr);
                {[ "input" := py "2 2"; "expected_output" := py "4";
                   "name" := [] ]} ]
              [Completed (py "3") [] 0; TimeoutExpired]).1.1).
Proof.
  apply (unnamed_batch_names_distinct scripted_run).
  constructor; [ left; reflexivity | ].
  constructor; [ right; reflexivity | constructor ].
Defined.

(** ** Stems and suffixes *)

Lemma rfind_dot_None name : rfind_dot name = None <-> 46%N ∉ name.
Proof.
  induction name as [ | c name IH]; cbn [rfind_dot].
  - split; [ intros _; apply not_elem_of_nil | reflexivity ].
  - rewrite not_elem_of_cons.
    destruct (rfind_dot name) as [i | ].
    + split; [ discriminate | ]. intros [_ H]. now apply IH in H.
    + destruct (N.eqb_spec c 46) as [-> | Hc].
      * split; [ discriminate | ]. now intros [H _].
      * split; [ | reflexivity ]. intros _. split; [ congruence | ].
        now apply IH.
Qed.

(** [rfind_dot] finds a dot, and there is no dot after it. *)
Lemma rfind_dot_Some name i :
  rfind_dot name = Some i ->
  (i < length name)%nat
  /\ drop i name = 46%N :: drop (S i) name
  /\ 46%N ∉ drop (S i) name.
Proof.
  revert i. induction name as [ | c name IH]; intros i; [ discriminate | ].
  cbn [rfind_dot]. destruct (rfind_dot name) as [j | ] eqn:Hj.
  - intros [= <-]. destruct (IH j eq_refl) as (Hlt & Hdrop & Hno).
    cbn [length drop]. split; [ lia | split; assumption ].
  - destruct (N.eqb_spec c 46) as [-> | _]; [ | discriminate ].
    intros [= <-]. cbn [length drop]. split; [ lia | split; [ reflexivity | ] ].
    rewrite drop_0. now apply rfind_dot_None.
Qed.

Lemma rfind_dot_app name1 name2 i :
  rfind_dot name2 = Some i ->
  rfind_dot (name1 ++ name2) = Some (length name1 + i)%nat.
Proof.
  intros H. induction name1 as [ | c name1 IH]; [ exact H | ].
  cbn [app rfind_dot length]. now rewrite IH.
Qed.

(** A suffix is empty, or a dot followed by at least one character and no
    further dot. *)
Lemma suffix_shape name :
  suffix name = []
  \/ exists e, suffix name = 46%N :: e /\ e <> [] /\ 46%N ∉ e.
Proof.
  unfold suffix. destruct (rfind_dot name) as [i | ] eqn:Hi; [ | now left ].
  destruct ((0 <? i)%nat && (S i <? length name)%nat) eqn:Hc; [ | now left ].
  right. apply andb_true_iff in Hc as [_ Hlen%Nat.ltb_lt].
  destruct (rfind_dot_Some _ _ Hi) as (_ & Hdrop & Hno).
  exists (drop (S i) name). split; [ exact Hdrop | split; [ | exact Hno ] ].
  intros Hnil. apply (f_equal length) in Hnil.
  rewrite length_drop in Hnil. cbn in Hnil. lia.
Qed.

(** The stem and the suffix of a name split it; putting the name's own
    suffix back gives the name; the stem of a non-empty name is not
    empty. *)
Lemma stem_suffix_split (name : pystr) :
  stem name ++ suffix name = name
  /\ with_suffix name (suffix name) = name
  /\ (suffix name = []
      \/ exists e, suffix name = 46%N :: e /\ e <> [] /\ 46%N ∉ e)
  /\ (name <> [] -> stem name <> []).
Proof.
  assert (Hsplit : stem name ++ suffix name = name).
  { unfold stem, suffix. destruct (rfind_dot name) as [i | ];
      [ | apply app_nil_r ].
    destruct ((0 <? i)%nat && (S i <? length name)%nat);
      [ apply take_drop | apply app_nil_r ]. }
  split; [ exact Hsplit | split; [ | split; [ apply suffix_shape | ] ] ].
  - unfold with_suffix.
    remember (stem name) as st eqn:Est. remember (suffix name) as su eqn:Esu.
    clear Est Esu. rewrite <- Hsplit.
    destruct su as [ | c old]; [ now rewrite !app_nil_r | ].
    now rewrite length_app, Nat.add_sub, take_app_length.
  - intros Hne. unfold stem. destruct (rfind_dot name) as [i | ]; [ | exact Hne ].
    destruct ((0 <? i)%nat && (S i <? length name)%nat) eqn:Hc; [ | exact Hne ].
    apply andb_true_iff in Hc as [Hi%Nat.ltb_lt Hlen%Nat.ltb_lt].
    intros Hnil. apply (f_equal length) in Hnil.
    rewrite length_take in Hnil. cbn in Hnil. lia.
Qed.

Lemma stem_app_suffix base e :
  base <> [] -> e <> [] -> 46%N ∉ e ->
  stem (base ++ 46%N :: e) = base /\ suffix (base ++ 46%N :: e) = 46%N :: e.
Proof.
  intros Hbase He Hno.
  assert (Hr : rfind_dot (base ++ 46%N :: e) = Some (length base)).
  { rewrite (rfind_dot_app base (46%N :: e) 0); [ now rewrite Nat.add_0_r | ].
    cbn [rfind_dot]. apply rfind_dot_None in Hno. now rewrite Hno. }
  assert (Hc : ((0 <? length base)%nat
                && (S (length base) <? length (base ++ 46%N :: e))%nat) = true).
  { apply andb_true_iff. split; apply Nat.ltb_lt.
    - destruct base; [ congruence | cbn; lia ].
    - rewrite length_app. cbn [length]. destruct e; [ congruence | cbn; lia ]. }
  unfold stem, suffix. rewrite Hr, Hc.
  split; [ apply take_app_length | apply drop_app_length ].
Qed.

(** X10. Replacing the suffix of a file name by the suffix of the output
    pattern keeps the stem, and the new name has that suffix: the file
    method 1 looks for is one method 2 would accept by its stem. *)
Theorem with_suffix_keeps_stem (input_file output_pattern : pystr) :
  input_file <> [] -> suffix output_pattern <> [] ->
  stem (with_suffix input_file (suffix output_pattern)) = stem input_file
  /\ suffix (with_suffix input_file (suffix output_pattern))
     = suffix output_pattern
  /\ with_suffix input_file (suffix output_pattern)
     = stem input_file ++ suffix output_pattern.
Proof.
  intros Hne Hext.
  destruct (suffix_shape output_pattern) as [H | (e & -> & He & Hno)];
    [ congruence | ].
  destruct (stem_suffix_split input_file) as (Hsplit & _ & _ & Hstem).
  assert (Hw : with_suffix input_file (46%N :: e) = stem input_file ++ 46%N :: e).
  { unfold with_suffix. clear Hstem.
    remember (stem input_file) as st eqn:Est.
    remember (suffix input_file) as su eqn:Esu.
    clear Est Esu. rewrite <- Hsplit.
    destruct su as [ | c old]; [ now rewrite !app_nil_r | ].
    now rewrite length_app, Nat.add_sub, take_app_length. }
  rewrite Hw.
  destruct (stem_app_suffix (stem input_file) e (Hstem Hne) He Hno) as [-> ->].
  now repeat split.
Qed.

Lemma with_suffix_keeps_stem_witness :
  stem (with_suffix (py "test1.in") (suffix (py "*.out"))) = stem (py "test1.in")
  /\ suffix (with_suffix (py "test1.in") (suffix (py "*.out")))
     = suffix (py "*.out")
  /\ with_suffix (py "test1.in") (suffix (py "*.out"))
     = stem (py "test1.in") ++ suffix (py "*.out").
Proof.
  apply with_suffix_keeps_stem; discriminate.
Defined.


(** ** Test discovery, continued *)

Lemma stem_nonempty name : name <> [] -> stem name <> [].
Proof.
  intros Hne. unfold stem. destruct (rfind_dot name) as [i | ]; [ | exact Hne ].
  destruct ((0 <? i)%nat && (S i <? length name)%nat) eqn:Hc; [ | exact Hne ].
  apply andb_true_iff in Hc as [Hi%Nat.ltb_lt Hlen%Nat.ltb_lt].
  intros Hnil. apply (f_equal length) in Hnil.
  rewrite length_take in Hnil. cbn in Hnil. lia.
Qed.

Section DiscoveryTheorems.

Variable fnmatch : pystr -> pystr -> bool.
Variable files : listing.
Variables test_dir input_pattern output_pattern : pystr.

Let loaded :=
  load_tests_from_directory fnmatch (Some files) test_dir input_pattern
    output_pattern.



(** X12. Every test case returned is built from a file matching the input
    pattern: its name is the stem of that file, its input the text of that
    file, its expected output the text of the output file found for it. *)
Theorem loaded_test_cases_come_from_pairs
    (out : list pystr) (tcs : list (gmap string pystr))
    (tc : gmap string pystr) :
  loaded = (out, inr tcs) -> tc ∈ tcs ->
  exists f o i e,
    f ∈ files.*1 /\ fnmatch input_pattern f = true
    /\ find_output fnmatch files output_pattern f = inr (Some o)
    /\ o ∈ files.*1
    /\ read_file files f = Readable i
    /\ read_file files o = Readable e
    /\ tc !! "name" = Some (stem f)
    /\ tc !! "input" = Some i
    /\ tc !! "expected_output" = Some e
    /\ dom tc = ({[ "name"; "input"; "expected_output" ]} : gset string).
Proof.
  intros Hload Htc.
  apply loaded_returned in Hload as (_ & _ & Hloop).
  apply load_loop_returned in Hloop as (_ & _ & Hall & _).
  rewrite Forall_forall in Hall.
  destruct (Hall tc Htc) as (f & o & i & e & Hf & Hfind & Hi & Ho & ->).
  apply (proj1 (sorted_elem_of _ _)) in Hf.
  apply (proj1 (glob_matches_elem_of _ _ _ _)) in Hf as [Hf Hm].
  exists f, o, i, e.
  pose proof (find_output_exists _ _ _ _ _ Hfind) as Hex.
  apply bool_decide_eq_true in Hex.
  unfold test_case_of.
  repeat split; try assumption; try dict_lookup.
Qed.




End DiscoveryTheorems.


Lemma loaded_test_cases_come_from_pairs_witness :
  exists f o i e,
    f ∈ sample_dir.*1 /\ fnmatch_simple (py "*.in") f = true
    /\ find_output fnmatch_simple sample_dir (py "*.out") f = inr (Some o)
    /\ o ∈ sample_dir.*1
    /\ read_file sample_dir f = Readable i
    /\ read_file sample_dir o = Readable e
    /\ test_case_of (py "c.in") (py "4 5") (py "9") !! "name" = Some (stem f)
    /\ test_case_of (py "c.in") (py "4 5") (py "9") !! "input" = Some i
    /\ test_case_of (py "c.in") (py "4 5") (py "9") !! "expected_output"
       = Some e
    /\ dom (test_case_of (py "c.in") (py "4 5") (py "9"))
       = ({[ "name"; "input"; "expected_output" ]} : gset string).
Proof.
  apply (loaded_test_cases_come_from_pairs fnmatch_simple sample_dir
           (py "tests") (py "*.in") (py "*.out")
           [skip_warning (py "b.in")]
           [test_case_of (py "a.in") (py "1 2") (py "3");
            test_case_of (py "c.in") (py "4 5") (py "9")]).
  - vm_compute. reflexivity.
  - apply list_elem_of_further, list_elem_of_here.
Defined.



(** A test case of a load that returned is named after a matching file. *)
Lemma loaded_test_cases_come_from_pairs_aux (fnmatch : pystr -> pystr -> bool)
    (files : listing) (test_dir input_pattern output_pattern : pystr)
    (out : list pystr) (tcs : list (gmap string pystr))
    (tc : gmap string pystr) :
  load_tests_from_directory fnmatch (Some files) test_dir input_pattern
    output_pattern = (out, inr tcs) ->
  tc ∈ tcs ->
  exists f, f ∈ glob_matches fnmatch files input_pattern
            /\ tc !! "name" = Some (stem f).
Proof.
  intros Hload Htc.
  apply loaded_returned in Hload as (_ & _ & Hloop).
  apply load_loop_returned in Hloop as (_ & _ & Hall & _).
  rewrite Forall_forall in Hall.
  destruct (Hall tc Htc) as (f & o & i & e & Hf & _ & _ & _ & ->).
  exists f. split; [ now apply (proj1 (sorted_elem_of _ _)) in Hf | ].
  unfold test_case_of. dict_lookup.
Qed.

(** ** Running a directory *)

Lemma run_multiple_tests_well_formed {world : Type}
    (run : world -> pystr -> pystr -> Z -> run_result * world)
    (self : TestCaseGrader) (test_cases : list (gmap string pystr))
    (w : world) :
  let call := run_multiple_tests run self test_cases w in
  results call.1.2 = call.1.1
  /\ length call.1.1 = length test_cases
  /\ Forall well_formed call.1.1.
Proof.
  intros call.
  destruct (run_multiple_tests_spec run self test_cases w)
    as (_ & Hsame & Hlen & _).
  fold call in Hsame, Hlen. split; [ exact Hsame | split; [ exact Hlen | ] ].
  rewrite <- Hsame. unfold call, run_multiple_tests.
  pose proof (run_loop_invariants run test_cases (set_results self []) w)
    as (_ & _ & _ & Hall).
  destruct (run_loop run test_cases (set_results self []) w) as [s1 w1].
  cbn [fst snd] in *. apply Hall. constructor.
Qed.

(** A test case with a non-empty name keeps it in its outcome. *)
Lemma named_batch_names {world : Type}
    (run : world -> pystr -> pystr -> Z -> run_result * world)
    (self : TestCaseGrader) (test_cases : list (gmap string pystr))
    (w : world) :
  Forall (fun tc => exists n, tc !! "name" = Some n /\ n <> []) test_cases ->
  map (fun r => r !! "test_name")
    (run_multiple_tests run self test_cases w).1.1
  = map (fun tc => VStr <$> tc !! "name") test_cases.
Proof.
  intros Hnamed.
  destruct (run_multiple_tests_spec run self test_cases w)
    as (_ & _ & _ & _ & ->).
  rewrite <- (imap_const (fun tc => VStr <$> tc !! "name")).
  apply imap_ext. intros k tc Hk. cbn. unfold batch_name.
  rewrite Forall_forall in Hnamed.
  destruct (Hnamed tc) as (n & -> & Hn);
    [ eapply list_elem_of_lookup_2; exact Hk | ].
  now destruct n.
Qed.

Section DirectoryRun.

Context {world : Type}.
Variable run : world -> pystr -> pystr -> Z -> run_result * world.
Variable fnmatch : pystr -> pystr -> bool.
Variable self : TestCaseGrader.
Variable files : listing.
Variables test_dir input_pattern output_pattern : pystr.
Variable w : world.

(** X15. [run_tests_from_directory] on an existing directory whose file names
    are not empty, when it returns.  Either no test case was valid: then
    nothing is run and the session stays as it was, outcomes of earlier
    runs included.  Or the outcomes are those of the loaded test cases,
    one each and in order, recorded in the session and named after the
    stems of the input files, never by position. *)
Theorem run_tests_from_directory_outcomes
    (out : list pystr) (rs : list (gmap string pyval))
    (self' : TestCaseGrader) (w' : world) :
  Forall (fun f => f <> []) files.*1 ->
  run_tests_from_directory run fnmatch self (Some files) test_dir
    input_pattern output_pattern w = (out, inr (rs, self', w')) ->
  exists printed tcs,
    load_tests_from_directory fnmatch (Some files) test_dir input_pattern
      output_pattern = (printed, inr tcs)
    /\ length rs = length tcs
    /\ match tcs with
       | [] =>
           self' = self /\ w' = w
           /\ out = printed ++ [py "No valid test cases found!"]
       | _ =>
           results self' = rs
           /\ out = printed
                    ++ [py "Found " ++ str_of_int (Z.of_nat (length tcs))
                        ++ py " test case(s)"]
           /\ map (fun r => r !! "test_name") rs
              = map (fun tc => VStr <$> tc !! "name") tcs
           /\ Forall (fun tc =>
                        exists f, f ∈ glob_matches fnmatch files input_pattern
                                  /\ tc !! "name" = Some (stem f)) tcs
       end.
Proof.
  intros Hnames Hrun. unfold run_tests_from_directory in Hrun.
  destruct (load_tests_from_directory fnmatch (Some files) test_dir
              input_pattern output_pattern) as [printed [e | tcs]] eqn:Hload;
    [ discriminate | ].
  exists printed, tcs. split; [ reflexivity | ].
  destruct tcs as [ | tc tcs].
  - cbn in Hrun. injection Hrun as <- <- <- <-. now repeat split.
  - cbn [io_bind print io_ret] in Hrun. rewrite app_nil_r in Hrun.
    injection Hrun as <- Hcall.
    destruct (run_multiple_tests_well_formed run self (tc :: tcs) w)
      as (Hsame & Hlen & _).
    assert (Hstems : Forall (fun tc0 =>
                        exists f, f ∈ glob_matches fnmatch files input_pattern
                                  /\ tc0 !! "name" = Some (stem f))
                       (tc :: tcs)).
    { apply Forall_forall. intros tc0 Htc0.
      destruct (loaded_test_cases_come_from_pairs_aux fnmatch files test_dir
                  input_pattern output_pattern printed (tc :: tcs) tc0 Hload
                  Htc0) as (f & Hf & Hn).
      now exists f. }
    assert (Hnamed : Forall (fun tc0 => exists n, tc0 !! "name" = Some n
                                                  /\ n <> []) (tc :: tcs)).
    { eapply Forall_impl; [ exact Hstems | ].
      intros tc0 (f & Hf & Hn). exists (stem f). split; [ exact Hn | ].
      apply stem_nonempty. rewrite Forall_forall in Hnames. apply Hnames.
      now apply (proj1 (glob_matches_elem_of _ _ _ _)) in Hf as [Hf _]. }
    pose proof (named_batch_names run self (tc :: tcs) w Hnamed) as Hmap.
    rewrite Hcall in Hsame, Hlen, Hmap. cbn [fst snd] in Hsame, Hlen, Hmap.
    split; [ exact Hlen | ].
    split; [ exact Hsame | split; [ reflexivity | split; assumption ] ].
Qed.

End DirectoryRun.

Lemma run_tests_from_directory_outcomes_witness :
  let self := init (py "dp.py") 5 in
  let w := [Completed (py "3") [] 0; Completed (py "8") [] 0] in
  let tcs := [test_case_of (py "a.in") (py "1 2") (py "3");
              test_case_of (py "c.in") (py "4 5") (py "9")] in
  let call := run_multiple_tests scripted_run self tcs w in
  exists printed tcs,
    load_tests_from_directory fnmatch_simple (Some sample_dir) (py "tests")
      (py "*.in") (py "*.out") = (printed, inr tcs)
    /\ length call.1.1 = length tcs
    /\ match tcs with
       | [] =>
           call.1.2 = self /\ call.2 = w
           /\ [skip_warning (py "b.in"); py "Found 2 test case(s)"]
              = printed ++ [py "No valid test cases found!"]
       | _ =>
           results call.1.2 = call.1.1
           /\ [skip_warning (py "b.in"); py "Found 2 test case(s)"]
              = printed
                ++ [py "Found " ++ str_of_int (Z.of_nat (length tcs))
                    ++ py " test case(s)"]
           /\ map (fun r => r !! "test_name") call.1.1
              = map (fun tc => VStr <$> tc !! "name") tcs
           /\ Forall (fun tc =>
                        exists f, f ∈ glob_matches fnmatch_simple sample_dir (py "*.in")
                                  /\ tc !! "name" = Some (stem f)) tcs
       end.
Proof.
  intros self w tcs call.
  apply (run_tests_from_directory_outcomes scripted_run fnmatch_simple self
           sample_dir (py "tests") (py "*.in") (py "*.out") w
           [skip_warning (py "b.in"); py "Found 2 test case(s)"]
           call.1.1 call.1.2 call.2).
  - repeat (constructor; [ discriminate | ]). constructor.
  - vm_compute. reflexivity.
Defined.

(** ** The script *)

Section ScriptProperties.

Variable repr : pyval -> pystr.
Variable format_1f : Z * Z -> pystr.



Context {world : Type}.
Variable run : world -> pystr -> pystr -> Z -> run_result * world.
Variable fnmatch : pystr -> pystr -> bool.


End ScriptProperties.
